(** * Comment-removal prediction: the experiment utilities of
      [comment_removal/utils/mutils.py]

    The module is glue between an encoder, a scikit-learn estimator, numpy's
    matrix files and pandas.  It is embedded here as programs of a small
    state-and-exception monad over a world made of a file system, the
    logger's records and the trace of library calls.  What the libraries
    compute (encoders, estimators, metrics, the repository's own [read_csv],
    [plot_roc] and data loader) is taken as a record of functions,
    [Externals]; the control flow, the paths, the exception handlers and the
    local-variable discipline are those of the Python source.  The [timeit]
    decorator only reports how long a call took and is left out. *)

From Stdlib Require Import String Ascii List ZArith QArith Lia Sorted.
From stdpp Require Import base option list strings gmap.

Set Default Proof Using "Type".
Local Open Scope string_scope.
Local Open Scope list_scope.

(** ** Python values that travel through the module *)

(** An array entry.  The module never computes on entries; they are only
    carried from one library call to the next. *)
Inductive scalar :=
| SNum (q : Q)
| SStr (s : string).

(** A numpy array: its [shape] tuple and its entries in row-major order. *)
Record ndarray := mk_ndarray {
  nd_shape : list nat;
  nd_data : list scalar
}.

(** [np.array(l)] on a flat Python list. *)
Definition np_array (l : list scalar) : ndarray :=
  mk_ndarray [length l] l.

(** The encoded inputs of one set are either the initial [[]] of
    [encode_or_load_data] or a matrix. *)
Inductive pyinputs :=
| PyEmptyList
| PyArray (a : ndarray).

(** An exception: class name and message. *)
Record exn := Exn {
  exn_class : string;
  exn_msg : string
}.

Inductive result (A : Type) :=
| Return (a : A)
| Raise (e : exn).
Arguments Return {A} a.
Arguments Raise {A} e.

(** ** Command-line arguments *)

Record Args := mk_args {
  workdir : string;
  clf_save_name : string;
  clf_type : string;
  encoder_type : string;
  parallel : bool;
  test_file : string;
  predictions_file : string
}.

(** ** Encoders and estimators as constructed by the module *)

Inductive encoder :=
| LaserEncoder (args : Args)
| LSIEncoder (keep_n : Z).

Inductive estimator :=
| RandomForestClassifier (max_depth n_estimators max_features n_jobs : Z)
                         (random_state : Z) (verbose : bool)
| SVC (gamma : string) (random_state : Z) (verbose : bool)
| MLPClassifier (hidden_layer_sizes : list Z) (activation : string)
                (early_stopping : bool) (random_state : Z).

(** A classifier object: the estimator it was constructed as and, once
    [fit] has succeeded on it, the training set it was fitted on.  [fit]
    mutates the object in place, so the estimator part never changes. *)
Record classifier := mk_classifier {
  clf_estimator : estimator;
  clf_fitted : option (pyinputs * ndarray)
}.

Definition unfitted (e : estimator) : classifier := mk_classifier e None.
Definition fitted_on (e : estimator) (x : pyinputs) (y : ndarray) : classifier :=
  mk_classifier e (Some (x, y)).

(** ** Data frames (pandas) *)

Record DataFrame := mk_df {
  df_columns : list string;
  df_index : list scalar;
  df_rows : list (list scalar)
}.

(** A row taken out of a frame: a [Series] indexed by the column names. *)
Definition Series := list (string * scalar).

(** ** The world *)

(** What a file holds.  A delimited text file is kept as its separator,
    header and rows rather than as characters. *)
Inductive file :=
| FNpy (a : ndarray)
| FPkl (c : classifier)
| FDelim (sep : string) (header : list string) (rows : list (list scalar))
| FRaw (s : string).

Inductive level := DEBUG | INFO | ERROR.

(** An argument of a log message, [str.format]-ed into the template. *)
Inductive logarg :=
| LShape (sh : list nat)
| LStr (s : string)
| LNames (l : list string)
| LNum (q : Q)
| LExn (e : exn).

Record log_record := mk_log {
  log_level : level;
  log_template : string;
  log_args : list logarg
}.

(** Keys of the dictionaries built by [roc_curve]. *)
Inductive dkey :=
| KInt (i : nat)
| KStr (s : string).

(** Every call that leaves the module, in the order it is made. *)
Inductive event :=
| EvEncode (enc : encoder) (comments : list scalar) (par : bool)
| EvFitTransform (enc : encoder) (comments : list scalar)
| EvNpLoad (path : string)
| EvNpSave (path : string) (a : ndarray)
| EvJoblibDump (c : classifier) (path : string)
| EvJoblibLoad (path : string)
| EvFit (e : estimator) (x : pyinputs) (y : ndarray)
| EvPredict (c : classifier) (x : pyinputs)
| EvScore (c : classifier) (x : pyinputs) (y : ndarray)
| EvClassificationReport (y_true y_pred : ndarray) (target_names : list string)
| EvPrint (s : string)
| EvPredictProba (c : classifier) (x : pyinputs)
| EvNumpy (op : string)
| EvRocAucScore
| EvRocCurve (k : dkey)
| EvAuc (k : dkey)
| EvPlotRoc
| EvReadCsv (path : string)
| EvToCsv (path : string).

Record World := mk_world {
  w_fs : gmap string file;
  w_log : list log_record;
  w_trace : list event
}.

(** ** The monad: state over [World], with Python exceptions *)

Definition M (A : Type) : Type := World -> result A * World.

Definition ret {A} (a : A) : M A := fun w => (Return a, w).

Definition bind {A B} (c : M A) (k : A -> M B) : M B :=
  fun w => match c w with
           | (Return a, w') => k a w'
           | (Raise e, w') => (Raise e, w')
           end.

Definition raise {A} (e : exn) : M A := fun w => (Raise e, w).

Notation "'let*' x ':=' c 'in' k" := (bind c (fun x => k))
  (at level 10, x pattern, c at level 100, k at level 200).
Notation "c ';;' k" := (bind c (fun _ => k))
  (at level 100, k at level 200, right associativity).

(** [try: body / except Exception as e: handler / else: orelse].  The
    [else] suite runs outside the protection of the [try]. *)
Definition try_except_else {A B} (body : M A) (handler : exn -> M B)
    (orelse : A -> M B) : M B :=
  fun w => match body w with
           | (Return a, w') => orelse a w'
           | (Raise e, w') => handler e w'
           end.

(** [try: body / except Exception as e: handler]. *)
Definition try_except {A} (body : M A) (handler : exn -> M A) : M A :=
  try_except_else body handler ret.

Definition lift_result {A} (r : result A) : M A := fun w => (r, w).

Definition lift_status (r : option exn) : M unit :=
  match r with
  | None => ret tt
  | Some e => raise e
  end.

Definition emit (ev : event) : M unit :=
  fun w => (Return tt, mk_world (w_fs w) (w_log w) (w_trace w ++ [ev])).

Definition logger (lv : level) (template : string) (args : list logarg) : M unit :=
  fun w => (Return tt,
            mk_world (w_fs w) (w_log w ++ [mk_log lv template args]) (w_trace w)).

(** [logger.exception(e)]: an ERROR record carrying the exception. *)
Definition logger_exception (e : exn) : M unit :=
  logger ERROR "{}" [LExn e].

Definition get_fs : M (gmap string file) := fun w => (Return (w_fs w), w).

(** Writing a file.  The directories of the run exist and are writable, so
    a write always goes through. *)
Definition write_file (path : string) (f : file) : M unit :=
  fun w => (Return tt, mk_world (<[path := f]> (w_fs w)) (w_log w) (w_trace w)).

(** Reading a local variable that may not have been assigned yet. *)
Definition read_local {A} (name : string) (v : option A) : M A :=
  match v with
  | Some a => ret a
  | None =>
      raise (Exn "UnboundLocalError"
                 ("local variable '" +:+ name +:+ "' referenced before assignment"))
  end.

(** ** Paths and formatting *)

Definition starts_with (p s : string) : bool := String.prefix p s.

Definition ends_with (suf s : string) : bool :=
  bool_decide (list_ascii_of_string suf `suffix_of` list_ascii_of_string s).

(** [os.path.join(a, b)] of [posixpath]. *)
Definition os_path_join (a b : string) : string :=
  if starts_with "/" b then b
  else if (String.eqb a "" || ends_with "/" a)%bool then a +:+ b
  else a +:+ "/" +:+ b.

(** [os.path.exists(path)]. *)
Definition os_path_exists (path : string) : M bool :=
  let* fs := get_fs in ret (bool_decide (is_Some (fs !! path))).

(** ["{}_{}.pkl".format(a, b)]. *)
Definition format_pkl (a b : string) : string := a +:+ "_" +:+ b +:+ ".pkl".

(** ["{}_{}-comments.npy".format(a, b)], the [tinp_file] template. *)
Definition tinp_file_format (a b : string) : string :=
  a +:+ "_" +:+ b +:+ "-comments.npy".

(** ** joblib and numpy files *)

Definition joblib_dump (c : classifier) (path : string) : M unit :=
  emit (EvJoblibDump c path);;
  write_file path (FPkl c).

Definition joblib_load (path : string) : M classifier :=
  emit (EvJoblibLoad path);;
  let* fs := get_fs in
  match fs !! path with
  | Some (FPkl c) => ret c
  | Some _ => raise (Exn "UnpicklingError" path)
  | None => raise (Exn "FileNotFoundError" path)
  end.

(** [np.save(path, a)]: the extension [.npy] is appended when the name
    does not end with it. *)
Definition np_save (path : string) (a : ndarray) : M unit :=
  emit (EvNpSave path a);;
  write_file (if ends_with ".npy" path then path else path +:+ ".npy") (FNpy a).

Definition np_load (path : string) : M ndarray :=
  emit (EvNpLoad path);;
  let* fs := get_fs in
  match fs !! path with
  | Some (FNpy a) => ret a
  | Some _ => raise (Exn "ValueError" path)
  | None => raise (Exn "FileNotFoundError" path)
  end.

(** ** [save_model] and [load_model] *)

Definition save_model (args : Args) (clf : classifier) : M unit :=
  let save_path :=
    os_path_join (workdir args)
                 (format_pkl (clf_save_name args) (clf_type args)) in
  joblib_dump clf save_path.

Definition load_model (args : Args) : M classifier :=
  let save_path :=
    os_path_join (workdir args)
                 (format_pkl (clf_save_name args) (clf_type args)) in
  joblib_load save_path.

(** ** Arrays, frames and dictionaries *)

(** [x.shape], which a Python list does not have. *)
Definition py_shape (x : pyinputs) : M (list nat) :=
  match x with
  | PyArray a => ret (nd_shape a)
  | PyEmptyList =>
      raise (Exn "AttributeError" "'list' object has no attribute 'shape'")
  end.

(** [a.shape[0]]. *)
Definition shape0 (a : ndarray) : M nat :=
  match nd_shape a with
  | n :: _ => ret n
  | [] => raise (Exn "IndexError" "tuple index out of range")
  end.

Definition nd_scalar (s : scalar) : ndarray := mk_ndarray [] [s].

Fixpoint chunks {A} (k n : nat) (l : list A) : list (list A) :=
  match n with
  | O => []
  | S n' => take k l :: chunks k n' (drop k l)
  end.

(** Iterating over an array walks its first axis. *)
Definition nd_iter (a : ndarray) : M (list ndarray) :=
  match nd_shape a with
  | [] => raise (Exn "TypeError" "iteration over a 0-d array")
  | n :: rest =>
      ret (map (mk_ndarray rest) (chunks (fold_right Nat.mul 1%nat rest) n (nd_data a)))
  end.

(** [np.zeros(shape)] and [a.ravel()]. *)
Definition np_zeros (shape : list nat) : ndarray :=
  mk_ndarray shape (repeat (SNum 0) (fold_right Nat.mul 1%nat shape)).

Definition np_ravel (a : ndarray) : ndarray :=
  mk_ndarray [length (nd_data a)] (nd_data a).

(** [enumerate(l)]. *)
Definition enumerate {A} (l : list A) : list (nat * A) :=
  combine (seq 0 (length l)) l.

(** A [for] loop over [l] threading the variables [s] the body assigns. *)
Fixpoint for_each {A S} (l : list A) (body : A -> S -> M S) (s : S) : M S :=
  match l with
  | [] => ret s
  | x :: l' => let* s' := body x s in for_each l' body s'
  end.

Fixpoint index_of (c : string) (cols : list string) : option nat :=
  match cols with
  | [] => None
  | c' :: cols' =>
      if String.eqb c c' then Some O else option_map S (index_of c cols')
  end.

(** [df[[c1, ..., cn]]]: the frame restricted to the listed columns, a
    [KeyError] when one is absent.  Column names are distinct, as pandas'
    reader makes them. *)
Definition df_getitem (df : DataFrame) (cols : list string) : M DataFrame :=
  match mapM (fun c => index_of c (df_columns df)) cols with
  | Some idxs =>
      ret (mk_df cols (df_index df)
                 (map (fun r => map (fun j => nth j r (SStr "")) idxs) (df_rows df)))
  | None => raise (Exn "KeyError" "not in index")
  end.

Definition copy_deepcopy (df : DataFrame) : DataFrame := df.

(** [df.iloc[i]] for [0 <= i]: a fresh [Series] holding the row. *)
Definition df_iloc (df : DataFrame) (i : nat) : M Series :=
  match df_rows df !! i with
  | Some r => ret (combine (df_columns df) r)
  | None => raise (Exn "IndexError" "single positional indexer is out-of-bounds")
  end.

(** [s[key] = v] on a [Series]: the label is overwritten, or added at the
    end when it is new. *)
Fixpoint series_setitem (s : Series) (key : string) (v : scalar) : Series :=
  match s with
  | [] => [(key, v)]
  | (k, x) :: s' =>
      if String.eqb k key then (k, v) :: s' else (k, x) :: series_setitem s' key v
  end.

(** The first entry of an item of a one-dimensional array. *)
Definition item_scalar (a : ndarray) : scalar :=
  match nd_data a with
  | s :: _ => s
  | [] => SStr ""
  end.

Definition TAB : string := String (ascii_of_nat 9) EmptyString.

(** [df.to_csv(path, sep=sep, index=True, index_label=index_label)]. *)
Definition df_to_csv (df : DataFrame) (path sep index_label : string) : M unit :=
  emit (EvToCsv path);;
  write_file path
    (FDelim sep (index_label :: df_columns df)
            (zip_with cons (df_index df) (df_rows df))).

Global Instance dkey_eq_dec : EqDecision dkey.
Proof. solve_decision. Defined.

Definition dict (V : Type) : Type := list (dkey * V).

Fixpoint dict_set {V} (d : dict V) (k : dkey) (v : V) : dict V :=
  match d with
  | [] => [(k, v)]
  | (k', x) :: d' =>
      if decide (k' = k) then (k', v) :: d' else (k', x) :: dict_set d' k v
  end.

Fixpoint dict_get {V} (d : dict V) (k : dkey) : M V :=
  match d with
  | [] => raise (Exn "KeyError" "")
  | (k', x) :: d' => if decide (k' = k) then ret x else dict_get d' k
  end.

(** ** The data loader *)

(** [data_loader.get(column, set=name)]: a column of one of the two sets,
    looked up in data that is already loaded. *)
Record DataLoader := mk_loader {
  dl_get : string -> string -> list scalar
}.

(** ** What the libraries compute *)

(** The encoders of [comment_removal.encoders], scikit-learn's estimators and
    metrics, three numpy operations, and the repository's [read_csv] and
    [plot_roc].  Each may raise.  An encoder returns an array; [fit] returns
    nothing of interest; [sk_roc_curve] is [sklearn.metrics.roc_curve], of
    whose three results the caller keeps the first two. *)
Record Externals := mk_ext {
  encode : encoder -> list scalar -> bool -> result ndarray;
  fit_transform : encoder -> list scalar -> result ndarray;
  fit : estimator -> pyinputs -> ndarray -> option exn;
  predict : classifier -> pyinputs -> result ndarray;
  score : classifier -> pyinputs -> ndarray -> result Q;
  predict_proba : classifier -> pyinputs -> result ndarray;
  classification_report : ndarray -> ndarray -> list string -> result string;
  roc_auc_score : ndarray -> ndarray -> result Q;
  sk_roc_curve : ndarray -> ndarray -> result (ndarray * ndarray);
  auc : ndarray -> ndarray -> result Q;
  np_setitem : ndarray -> ndarray -> scalar -> result ndarray;
  np_max : ndarray -> nat -> result ndarray;
  np_column : ndarray -> nat -> result ndarray;
  read_csv : string -> gmap string file -> result DataFrame;
  plot_roc : dict ndarray -> dict ndarray -> dict Q -> nat -> option exn
}.

Section Mutils.

Variable E : Externals.

(** *** Library calls, each recorded in the trace *)

Definition encoder_encode (enc : encoder) (comments : list scalar) (par : bool)
  : M ndarray :=
  emit (EvEncode enc comments par);;
  lift_result (encode E enc comments par).

Definition encoder_fit_transform (enc : encoder) (comments : list scalar)
  : M ndarray :=
  emit (EvFitTransform enc comments);;
  lift_result (fit_transform E enc comments).

(** [clf.fit(x, y)]: on success the object [clf] is now fitted on [(x, y)]. *)
Definition clf_fit (clf : classifier) (x : pyinputs) (y : ndarray) : M classifier :=
  emit (EvFit (clf_estimator clf) x y);;
  lift_status (fit E (clf_estimator clf) x y);;
  ret (fitted_on (clf_estimator clf) x y).

Definition clf_predict (clf : classifier) (x : pyinputs) : M ndarray :=
  emit (EvPredict clf x);;
  lift_result (predict E clf x).

Definition clf_score (clf : classifier) (x : pyinputs) (y : ndarray) : M Q :=
  emit (EvScore clf x y);;
  lift_result (score E clf x y).

Definition clf_predict_proba (clf : classifier) (x : pyinputs) : M ndarray :=
  emit (EvPredictProba clf x);;
  lift_result (predict_proba E clf x).

Definition print (s : string) : M unit := emit (EvPrint s).

Definition numpy {A} (op : string) (r : result A) : M A :=
  emit (EvNumpy op);;
  lift_result r.

(** *** [save_predictions] *)

Definition save_predictions (args : Args) (y_pred : ndarray) : M unit :=
  let* df :=
    emit (EvReadCsv (test_file args));;
    let* fs := get_fs in
    lift_result (read_csv E (test_file args) fs) in
  let* gold := df_getitem df ["BODY"; "REMOVED"] in
  let pred := copy_deepcopy gold in
  let* items := nd_iter y_pred in
  let* pred :=
    for_each (enumerate items)
      (fun '(i, y_lbl) pred =>
         (* pred.iloc[i]['Prediction'] = y_lbl: the store goes to the Series
            that iloc returned, pred itself is not touched *)
         let* row := df_iloc pred i in
         let _row := series_setitem row "Prediction" (item_scalar y_lbl) in
         ret pred)
      pred in
  df_to_csv pred (predictions_file args) TAB "ID".

(** *** [roc_curve] *)

Definition roc_curve (y_test y_score : ndarray) (n_classes : nat) : M unit :=
  let* n := shape0 y_test in
  let y_test_ := np_zeros [n; 2%nat] in
  let* y_test_ := numpy "setitem" (np_setitem E y_test_ y_test (SNum 1)) in
  let* y_max := numpy "max" (np_max E y_score 1) in
  let* roc_score :=
    emit EvRocAucScore;; lift_result (roc_auc_score E y_test y_max) in
  logger INFO "ROC AUC score: {}" [LNum roc_score];;
  (* Compute ROC curve and ROC area for each class *)
  let* (fpr, tpr, roc_auc) :=
    for_each (seq 0 n_classes)
      (fun i '(fpr, tpr, roc_auc) =>
         let* yt_i := numpy "column" (np_column E y_test_ i) in
         let* ys_i := numpy "column" (np_column E y_score i) in
         let* (f, t) :=
           emit (EvRocCurve (KInt i));; lift_result (sk_roc_curve E yt_i ys_i) in
         let fpr := dict_set fpr (KInt i) f in
         let tpr := dict_set tpr (KInt i) t in
         let* f_i := dict_get fpr (KInt i) in
         let* t_i := dict_get tpr (KInt i) in
         let* a := emit (EvAuc (KInt i));; lift_result (auc E f_i t_i) in
         ret (fpr, tpr, dict_set roc_auc (KInt i) a))
      ([], [], []) in
  (* Compute micro-average ROC curve and ROC area *)
  let* (f, t) :=
    emit (EvRocCurve (KStr "micro"));;
    lift_result (sk_roc_curve E (np_ravel y_test_) (np_ravel y_score)) in
  let fpr := dict_set fpr (KStr "micro") f in
  let tpr := dict_set tpr (KStr "micro") t in
  let* f_m := dict_get fpr (KStr "micro") in
  let* t_m := dict_get tpr (KStr "micro") in
  let* a := emit (EvAuc (KStr "micro"));; lift_result (auc E f_m t_m) in
  let roc_auc := dict_set roc_auc (KStr "micro") a in
  emit EvPlotRoc;;
  lift_status (plot_roc E fpr tpr roc_auc 2).

(** *** [eval_model] *)

Definition eval_model (args : Args) (clf : classifier) (x_test : pyinputs)
    (y_test : ndarray) (target_names : list string) : M unit :=
  let* y_pred := clf_predict clf x_test in
  logger DEBUG "Predictions: {}" [LShape (nd_shape y_pred)];;
  (* Calculate score and classification report *)
  let* sc := clf_score clf x_test y_test in
  logger INFO "Test score: {}" [LNum sc];;
  let* report :=
    emit (EvClassificationReport y_test y_pred target_names);;
    lift_result (classification_report E y_test y_pred target_names) in
  print report;;
  (* ROC metrics *)
  let* y_score := clf_predict_proba clf x_test in
  roc_curve y_test y_score 2;;
  (* Save predictions as csv *)
  save_predictions args y_pred.

(** *** [make_classifier_and_predict] *)

Definition make_classifier_and_predict (args : Args)
    (train_set test_set : pyinputs * ndarray) (target_names : list string)
    (random_seed : Z) (clf_name : string) : M classifier :=
  let '(x_train, y_train) := train_set in
  let '(x_test, y_test) := test_set in
  let* sh := py_shape x_train in
  logger DEBUG "x-train: {} | y-train: {}" [LShape sh; LShape (nd_shape y_train)];;
  let* sh := py_shape x_test in
  logger DEBUG "x-test: {} | y-test: {}" [LShape sh; LShape (nd_shape y_test)];;
  logger DEBUG "Target names: {}" [LNames target_names];;
  (* Out-of-the-box Classifiers *)
  let clf : option classifier :=
    if String.eqb clf_name "randomforest" then
      Some (unfitted (RandomForestClassifier 100 1000 100 8 random_seed true))
    else if String.eqb clf_name "svc" then
      Some (unfitted (SVC "auto" random_seed true))
    else if String.eqb clf_name "mlp" then
      Some (unfitted (MLPClassifier [512; 128]%Z "relu" true random_seed))
    else None in
  (* Train the classifier & save *)
  let* clf := let* c := read_local "clf" clf in clf_fit c x_train y_train in
  save_model args clf;;
  eval_model args clf x_test y_test target_names;;
  ret clf.

(** The default of the keyword argument [clf_name]. *)
Definition default_clf_name : string := "randomforest".

(** *** [encode_text] *)

Definition encode_text (args : Args) (comments : list scalar) : M ndarray :=
  try_except
    (let* encoded_comments :=
       (* encode Comment data *)
       if String.eqb (encoder_type args) "LASER" then
         let encoder := LaserEncoder args in
         let* m := encoder_encode encoder comments (parallel args) in
         ret (Some m)
       else if String.eqb (encoder_type args) "LSI" then
         let encoder := LSIEncoder 10000 in
         let* m := encoder_fit_transform encoder comments in
         ret (Some m)
       else ret None in
     let* m := read_local "encoded_comments" encoded_comments in
     logger INFO "Comments encoded: {}" [LShape (nd_shape m)];;
     read_local "encoded_comments" encoded_comments)
    (fun e =>
       logger ERROR "Error while encoding inputs!" [];;
       raise e).

(** *** [load_encoded_inputs] *)

(** The value is [Some] of the pair the [try] suite returns, or [None] for
    the [None] that falls out of the [except] suite. *)
Definition load_encoded_inputs (training_mat_path test_mat_path : string)
  : M (option (ndarray * ndarray)) :=
  try_except
    (logger INFO "Loading encoded training matrix from: {}" [LStr training_mat_path];;
     let* train_data_encoded := np_load training_mat_path in
     logger INFO "Loading encoded test matrix from: {}" [LStr test_mat_path];;
     let* test_data_encoded := np_load test_mat_path in
     ret (Some (train_data_encoded, test_data_encoded)))
    (fun e =>
       logger ERROR "Error loading encoded inputs as numpy file" [];;
       logger_exception e;;
       ret None).

(** *** [encode_or_load_data] *)

Definition encode_or_load_data (args : Args) (data_loader : DataLoader)
  : M ((pyinputs * ndarray) * (pyinputs * ndarray)) :=
  (* ** Inputs ** *)
  let tinp_file := tinp_file_format in
  let encoded_train_inputs_path :=
    os_path_join (workdir args) (tinp_file "training" (encoder_type args)) in
  let encoded_test_inputs_path :=
    os_path_join (workdir args) (tinp_file "test" (encoder_type args)) in
  (* ** Inputs ** *)
  let encoded_test_inputs := PyEmptyList in
  let encoded_training_inputs := PyEmptyList in
  let* missing :=
    let* ex := os_path_exists encoded_train_inputs_path in
    if negb ex then ret true
    else let* ex := os_path_exists encoded_test_inputs_path in ret (negb ex) in
  let* (encoded_training_inputs, encoded_test_inputs) :=
    if missing : bool then
      (* Transform and save if not present *)
      let* encoded_training_inputs :=
        let* ex := os_path_exists encoded_train_inputs_path in
        if negb ex then
          logger INFO "Encoding train inputs" [];;
          try_except_else
            (* Preprocess and encode the inputs *)
            (encode_text args (dl_get data_loader "BODY" "train"))
            (fun e =>
               logger ERROR "Error while encoding train dataset" [];;
               logger_exception e;;
               ret encoded_training_inputs)
            (fun m =>
               np_save encoded_train_inputs_path m;;
               ret (PyArray m))
        else ret encoded_training_inputs in
      let* encoded_test_inputs :=
        let* ex := os_path_exists encoded_test_inputs_path in
        if negb ex then
          logger INFO "Encoding test inputs" [];;
          try_except_else
            (encode_text args (dl_get data_loader "BODY" "test"))
            (fun e =>
               logger ERROR "Error while encoding test dataset" [];;
               logger_exception e;;
               ret encoded_test_inputs)
            (fun m =>
               np_save encoded_test_inputs_path m;;
               ret (PyArray m))
        else ret encoded_test_inputs in
      ret (encoded_training_inputs, encoded_test_inputs)
    else
      logger INFO "Loading train & test inputs from file" [];;
      let* loaded :=
        load_encoded_inputs encoded_train_inputs_path encoded_test_inputs_path in
      match loaded with
      | Some (tr, te) => ret (PyArray tr, PyArray te)
      | None => raise (Exn "TypeError" "cannot unpack non-iterable NoneType object")
      end in
  (* ** Outputs ** *)
  let train_outputs := np_array (dl_get data_loader "REMOVED" "train") in
  let test_outputs := np_array (dl_get data_loader "REMOVED" "test") in
  ret ((encoded_training_inputs, train_outputs),
       (encoded_test_inputs, test_outputs)).

End Mutils.

(** ** Notions used in the statements *)

(** The library call [encode_text] makes for [args.encoder_type], and what
    it yields.  [encode_text_run] below shows that [encode_text] does
    exactly this. *)
Definition encoder_events (args : Args) (comments : list scalar) : list event :=
  if String.eqb (encoder_type args) "LASER" then
    [EvEncode (LaserEncoder args) comments (parallel args)]
  else if String.eqb (encoder_type args) "LSI" then
    [EvFitTransform (LSIEncoder 10000) comments]
  else [].

Definition encoder_outcome (E : Externals) (args : Args) (comments : list scalar)
  : result ndarray :=
  if String.eqb (encoder_type args) "LASER" then
    encode E (LaserEncoder args) comments (parallel args)
  else if String.eqb (encoder_type args) "LSI" then
    fit_transform E (LSIEncoder 10000) comments
  else
    Raise (Exn "UnboundLocalError"
               "local variable 'encoded_comments' referenced before assignment").

(** The record [encode_text] logs for an outcome. *)
Definition encode_text_log (r : result ndarray) : log_record :=
  match r with
  | Return m => mk_log INFO "Comments encoded: {}" [LShape (nd_shape m)]
  | Raise _ => mk_log ERROR "Error while encoding inputs!" []
  end.

(** The step of the pipeline a library call belongs to: fitting, saving the
    model, scoring and reporting, the ROC metrics, persisting the
    predictions.  Encoding and the matrix cache come before all of them. *)
Definition stage (ev : event) : nat :=
  match ev with
  | EvEncode _ _ _ | EvFitTransform _ _ | EvNpLoad _ | EvNpSave _ _
  | EvJoblibLoad _ => 0
  | EvFit _ _ _ => 1
  | EvJoblibDump _ _ => 2
  | EvPredict _ _ | EvScore _ _ _ | EvClassificationReport _ _ _
  | EvPrint _ => 3
  | EvPredictProba _ _ | EvNumpy _ | EvRocAucScore | EvRocCurve _ | EvAuc _
  | EvPlotRoc => 4
  | EvReadCsv _ | EvToCsv _ => 5
  end.

(** A trace in which no call of a later step precedes a call of an earlier
    one. *)
Definition in_pipeline_order (l : list event) : Prop :=
  StronglySorted le (map stage l).

(** A program whose calls all belong to the steps [lo..hi] and are made in
    pipeline order, whatever the outcome, and which leaves the earlier part
    of the trace alone. *)
Definition runs_in {A} (lo hi : nat) (c : M A) : Prop :=
  forall w, exists added,
    w_trace (c w).2 = w_trace w ++ added
    /\ in_pipeline_order added
    /\ Forall (fun ev => lo <= stage ev <= hi)%nat added.

(** An array of shape [N x width]. *)
Definition has_width (width : nat) (a : ndarray) : Prop :=
  exists n, nd_shape a = [n; width].

(** A delimited file has a column of the given name. *)
Definition file_has_column (name : string) (f : file) : Prop :=
  match f with
  | FDelim _ header _ => In name header
  | _ => False
  end.

(** ** A small run to evaluate the programs on *)

Module Sample.

Definition args : Args :=
  mk_args "work" "clf" "mlp" "LASER" false "data/test.csv" "work/predictions.tsv".

Definition body_train : list scalar := [SStr "first comment"; SStr "second comment"].
Definition body_test : list scalar := [SStr "third comment"].

Definition loader : DataLoader :=
  mk_loader (fun column set =>
    if String.eqb column "BODY" then
      if String.eqb set "train" then body_train else body_test
    else
      if String.eqb set "train" then [SNum 0; SNum 1] else [SNum 1]).

(** An encoder output: one row of three entries per comment. *)
Definition embed (comments : list scalar) : ndarray :=
  mk_ndarray [length comments; 3%nat] (repeat (SNum 0) (length comments * 3)).

Definition range_index (n : nat) : list scalar :=
  map (fun i => SNum (inject_Z (Z.of_nat i))) (seq 0 n).

(** Libraries that always succeed, except for the encoders when
    [encoder_ok] is [false] and for [read_csv] on a missing file. *)
Definition ext (encoder_ok : bool) : Externals :=
  mk_ext
    (fun _ comments _ =>
       if encoder_ok then Return (embed comments)
       else Raise (Exn "RuntimeError" "encoder failed"))
    (fun _ comments =>
       if encoder_ok then Return (embed comments)
       else Raise (Exn "RuntimeError" "encoder failed"))
    (fun _ _ _ => None)
    (fun _ _ => Return (mk_ndarray [1%nat] [SNum 0]))
    (fun _ _ _ => Return 1%Q)
    (fun _ _ => Return (mk_ndarray [1%nat; 2%nat] [SNum 1; SNum 0]))
    (fun _ _ _ => Return "report")
    (fun _ _ => Return 1%Q)
    (fun a b => Return (a, b))
    (fun _ _ => Return 1%Q)
    (fun a _ _ => Return a)
    (fun a _ => Return a)
    (fun a _ => Return a)
    (fun path fs =>
       match fs !! path with
       | Some (FDelim _ header rows) =>
           Return (mk_df header (range_index (length rows)) rows)
       | Some _ => Raise (Exn "ParserError" path)
       | None => Raise (Exn "FileNotFoundError" path)
       end)
    (fun _ _ _ _ => None).

(** A training matrix of shape 2 x 3 and a test matrix of shape 1 x 2. *)
Definition m_train : ndarray :=
  mk_ndarray [2%nat; 3%nat] [SNum 0; SNum 0; SNum 0; SNum 1; SNum 1; SNum 1].
Definition m_test : ndarray := mk_ndarray [1%nat; 2%nat] [SNum 1; SNum 0].

(** The gold test file: one comment, which was removed. *)
Definition fs_gold : gmap string file :=
  {[ "data/test.csv" :=
       FDelim "," ["BODY"; "REMOVED"] [[SStr "third comment"; SNum 1]] ]}.

Definition w_fresh : World := mk_world fs_gold [] [].

Definition w_train_cached : World :=
  mk_world (<["work/training_LASER-comments.npy" := FNpy m_train]> fs_gold) [] [].

Definition w_cached : World :=
  mk_world (<["work/test_LASER-comments.npy" := FNpy m_test]>
              (<["work/training_LASER-comments.npy" := FNpy m_train]> fs_gold))
           [] [].

End Sample.

(** ** Notions used in the further properties *)

(** What [encode_or_load_data] does for one set once it has decided to
    encode: nothing when the cache file [p] of the set exists, otherwise
    the encoder call, followed by the save of the matrix or by the two
    error records.  The value is the encoded inputs of the set and the
    world left behind.  [encode_or_load_data_encoding_run] below shows that
    the function does exactly this for the training set and then for the
    test set. *)
Definition encode_set (E : Externals) (args : Args) (p : string)
    (comments : list scalar) (set_name : string) (w : World)
  : pyinputs * World :=
  if bool_decide (is_Some (w_fs w !! p)) then (PyEmptyList, w)
  else
    match encoder_outcome E args comments with
    | Return m =>
        (PyArray m,
         mk_world (<[p := FNpy m]> (w_fs w))
           (w_log w
            ++ [mk_log INFO ("Encoding " +:+ set_name +:+ " inputs") [];
                mk_log INFO "Comments encoded: {}" [LShape (nd_shape m)]])
           (w_trace w ++ encoder_events args comments ++ [EvNpSave p m]))
    | Raise e =>
        (PyEmptyList,
         mk_world (w_fs w)
           (w_log w
            ++ [mk_log INFO ("Encoding " +:+ set_name +:+ " inputs") [];
                mk_log ERROR "Error while encoding inputs!" [];
                mk_log ERROR ("Error while encoding " +:+ set_name +:+ " dataset") [];
                mk_log ERROR "{}" [LExn e]])
           (w_trace w ++ encoder_events args comments))
    end.

(** A program that leaves every file as it is, whatever its outcome. *)
Definition keeps_fs {A} (c : M A) : Prop :=
  forall w, w_fs (c w).2 = w_fs w.

(** The calls [roc_curve] makes for class [i]. *)
Definition roc_class_events (i : nat) : list event :=
  [EvNumpy "column"; EvNumpy "column"; EvRocCurve (KInt i); EvAuc (KInt i)].

(** ** Further runs to evaluate the programs on *)

Module Cases.

(** An encoder name the module does not know. *)
Definition args_unknown_encoder : Args :=
  mk_args "work" "clf" "mlp" "BERT" false "data/test.csv" "work/predictions.tsv".

(** A model name that is an absolute path. *)
Definition args_absolute : Args :=
  mk_args "work" "/models/clf" "svc" "LASER" false "data/test.csv"
          "work/predictions.tsv".

(** Two settings whose model files coincide. *)
Definition args_a_bc : Args :=
  mk_args "work" "a" "b_c" "LASER" false "data/test.csv" "work/predictions.tsv".
Definition args_ab_c : Args :=
  mk_args "work" "a_b" "c" "LASER" false "data/test.csv" "work/predictions.tsv".

(** The libraries of the sample run, with an estimator that has no
    [predict_proba]. *)
Definition ext_no_proba : Externals :=
  let E := Sample.ext true in
  mk_ext (encode E) (fit_transform E) (fit E) (predict E) (score E)
    (fun _ _ =>
       Raise (Exn "AttributeError"
                  "predict_proba is not available when probability=False"))
    (classification_report E) (roc_auc_score E) (sk_roc_curve E) (auc E)
    (np_setitem E) (np_max E) (np_column E) (read_csv E) (plot_roc E).

(** Both cache files present, the training one not a matrix file. *)
Definition w_unreadable : World :=
  mk_world (<["work/test_LASER-comments.npy" := FNpy Sample.m_test]>
              (<["work/training_LASER-comments.npy" := FRaw "truncated"]>
                 Sample.fs_gold))
           [] [].

(** A gold file without the [REMOVED] column. *)
Definition w_no_removed : World :=
  mk_world {[ "data/test.csv" := FDelim "," ["BODY"] [[SStr "third comment"]] ]}
           [] [].

End Cases.

(** * Properties *)

(** ** Paths *)

Lemma list_ascii_of_string_app (s t : string) :
  list_ascii_of_string (s +:+ t)
  = list_ascii_of_string s ++ list_ascii_of_string t.
Proof. induction s as [|c s IH]; simpl; [reflexivity | now rewrite IH]. Qed.

Lemma ends_with_app (suf s : string) : ends_with suf (s +:+ suf) = true.
Proof.
  unfold ends_with. apply bool_decide_eq_true.
  rewrite list_ascii_of_string_app. apply suffix_app_r. reflexivity.
Qed.

Lemma ends_with_app_l (suf p s : string) :
  ends_with suf s = true -> ends_with suf (p +:+ s) = true.
Proof.
  unfold ends_with. rewrite !bool_decide_eq_true, list_ascii_of_string_app.
  apply suffix_app_r.
Qed.

(** A relative name joined to a directory ends the way the name ends. *)
Lemma os_path_join_ends_with (suf a b : string) :
  ends_with suf b = true -> ends_with suf (os_path_join a b) = true.
Proof.
  intros Hb. unfold os_path_join.
  destruct (starts_with "/" b); [exact Hb|].
  destruct (String.eqb a "" || ends_with "/" a)%bool.
  - now apply ends_with_app_l.
  - now apply ends_with_app_l, ends_with_app_l.
Qed.

Lemma tinp_file_ends_with_npy (a b : string) :
  ends_with ".npy" (tinp_file_format a b) = true.
Proof.
  unfold tinp_file_format.
  do 3 apply ends_with_app_l.
  exact (ends_with_app ".npy" "-comments").
Qed.

(** The two cache files of a run never coincide. *)
Lemma train_test_paths_differ (wd enc : string) :
  os_path_join wd (tinp_file_format "training" enc)
  <> os_path_join wd (tinp_file_format "test" enc).
Proof.
  unfold os_path_join, tinp_file_format. simpl.
  destruct (String.eqb wd "" || ends_with "/" wd)%bool; intros H.
  - apply (inj (String.app wd)) in H. discriminate H.
  - apply (inj (String.app wd)) in H. discriminate H.
Qed.

(** ** Running the programs *)

Lemma os_path_exists_run (p : string) (w : World) :
  os_path_exists p w = (Return (bool_decide (is_Some (w_fs w !! p))), w).
Proof. reflexivity. Qed.

Lemma np_load_npy (p : string) (a : ndarray) (w : World) :
  w_fs w !! p = Some (FNpy a) ->
  np_load p w = (Return a, mk_world (w_fs w) (w_log w) (w_trace w ++ [EvNpLoad p])).
Proof. intros H. unfold np_load, bind, emit, get_fs. simpl. now rewrite H. Qed.

(** [np.load] raises on anything that is not a matrix file, and touches
    nothing but the trace. *)
Lemma np_load_not_npy (p : string) (w : World) :
  (forall a, w_fs w !! p <> Some (FNpy a)) ->
  exists e, np_load p w
            = (Raise e, mk_world (w_fs w) (w_log w) (w_trace w ++ [EvNpLoad p])).
Proof.
  intros H. unfold np_load, bind, emit, get_fs. simpl.
  destruct (w_fs w !! p) as [[a| | |]|] eqn:Hp; try (eexists; reflexivity).
  now destruct (H a).
Qed.

Lemma run_bind {A B} (c : M A) (k : A -> M B) (w : World) :
  bind c k w = match c w with
               | (Return a, w') => k a w'
               | (Raise e, w') => (Raise e, w')
               end.
Proof. reflexivity. Qed.

Lemma run_ret {A} (a : A) (w : World) : ret a w = (Return a, w).
Proof. reflexivity. Qed.

Lemma run_raise {A} (e : exn) (w : World) : @raise A e w = (Raise e, w).
Proof. reflexivity. Qed.

Lemma run_logger (lv : level) (t : string) (a : list logarg) (w : World) :
  logger lv t a w
  = (Return tt, mk_world (w_fs w) (w_log w ++ [mk_log lv t a]) (w_trace w)).
Proof. reflexivity. Qed.

Lemma run_emit (ev : event) (w : World) :
  emit ev w = (Return tt, mk_world (w_fs w) (w_log w) (w_trace w ++ [ev])).
Proof. reflexivity. Qed.

Lemma run_lift_result {A} (r : result A) (w : World) : lift_result r w = (r, w).
Proof. reflexivity. Qed.

Lemma run_get_fs (w : World) : get_fs w = (Return (w_fs w), w).
Proof. reflexivity. Qed.

Lemma run_write_file (p : string) (f : file) (w : World) :
  write_file p f w
  = (Return tt, mk_world (<[p := f]> (w_fs w)) (w_log w) (w_trace w)).
Proof. reflexivity. Qed.

Create Rewrite HintDb run.
#[local] Hint Rewrite @run_bind @run_ret @run_raise run_logger run_emit
  @run_lift_result run_get_fs run_write_file os_path_exists_run : run.

(** One step of symbolic execution: push the world through the head of the
    program, then reduce the matches that became decided. *)
Ltac run :=
  repeat (progress (autorewrite with run;
                    cbn [negb w_fs w_log w_trace fst snd];
                    cbv beta iota)).

(** ** C10: the model file *)

(** C10. [save_model] followed by [load_model] with the same [args] returns
    the classifier that was saved: both compute the path
    [{clf_save_name}_{clf_type}.pkl] under [args.workdir], the dump writes
    there and the load reads there. *)
Theorem save_model_load_model_roundtrip (args : Args) (clf : classifier) (w : World) :
  let path :=
    os_path_join (workdir args)
                 (clf_save_name args +:+ "_" +:+ clf_type args +:+ ".pkl") in
  (save_model args clf;; load_model args) w
  = (Return clf,
     mk_world (<[path := FPkl clf]> (w_fs w)) (w_log w)
              (w_trace w ++ [EvJoblibDump clf path; EvJoblibLoad path])).
Proof.
  intros path.
  unfold save_model, load_model, format_pkl. fold path.
  unfold bind, joblib_dump, joblib_load, bind, emit, write_file, get_fs. simpl.
  rewrite lookup_insert_eq, <- app_assoc. reflexivity.
Qed.

(** ** [encode_text] *)

Section Runs.

Variable E : Externals.

Lemma encode_text_run (args : Args) (comments : list scalar) (w : World) :
  encode_text E args comments w
  = (encoder_outcome E args comments,
     mk_world (w_fs w)
              (w_log w ++ [encode_text_log (encoder_outcome E args comments)])
              (w_trace w ++ encoder_events args comments)).
Proof.
  unfold encode_text, encoder_outcome, encoder_events.
  unfold try_except, try_except_else, bind.
  destruct (String.eqb (encoder_type args) "LASER").
  - unfold encoder_encode, bind, emit, lift_result. simpl.
    destruct (encode E _ _ _); reflexivity.
  - destruct (String.eqb (encoder_type args) "LSI").
    + unfold encoder_fit_transform, bind, emit, lift_result. simpl.
      destruct (fit_transform E _ _); reflexivity.
    + simpl. unfold bind, logger, raise. simpl. now rewrite app_nil_r.
Qed.

(** The [try] / [except] / [else] block that encodes one set and saves the
    matrix to [p]. *)
Lemma encode_and_save_run (p : string) (args : Args) (comments : list scalar)
    (msg : string) (w : World) :
  ends_with ".npy" p = true ->
  try_except_else
    (encode_text E args comments)
    (fun e => logger ERROR msg [];; logger_exception e;; ret PyEmptyList)
    (fun m => np_save p m;; ret (PyArray m)) w
  = match encoder_outcome E args comments with
    | Return m =>
        (Return (PyArray m),
         mk_world (<[p := FNpy m]> (w_fs w))
                  (w_log w ++ [mk_log INFO "Comments encoded: {}" [LShape (nd_shape m)]])
                  (w_trace w ++ encoder_events args comments ++ [EvNpSave p m]))
    | Raise e =>
        (Return PyEmptyList,
         mk_world (w_fs w)
                  (w_log w ++ [mk_log ERROR "Error while encoding inputs!" [];
                               mk_log ERROR msg [];
                               mk_log ERROR "{}" [LExn e]])
                  (w_trace w ++ encoder_events args comments))
    end.
Proof.
  intros Hp. unfold try_except_else. rewrite encode_text_run.
  destruct (encoder_outcome E args comments) as [m|e]; simpl.
  - unfold np_save. run. rewrite Hp. now rewrite <- app_assoc.
  - unfold logger_exception. run. now rewrite <- !app_assoc.
Qed.

Lemma bool_decide_is_Some_None {A} (o : option A) :
  o = None -> bool_decide (is_Some o) = false.
Proof. intros ->. apply bool_decide_eq_false. intros [? ?]; discriminate. Qed.

(** Names the two cache paths and keeps what is needed about them. *)
Ltac name_cache_paths args ptr pte Hne Hntr Hnte :=
  change (os_path_join (workdir args)
            (tinp_file_format "training" (encoder_type args))) with ptr;
  change (os_path_join (workdir args)
            (tinp_file_format "test" (encoder_type args))) with pte;
  assert (Hne : ptr <> pte) by apply train_test_paths_differ;
  assert (Hntr : ends_with ".npy" ptr = true)
    by (apply os_path_join_ends_with;
        exact (tinp_file_ends_with_npy "training" (encoder_type args)));
  assert (Hnte : ends_with ".npy" pte = true)
    by (apply os_path_join_ends_with;
        exact (tinp_file_ends_with_npy "test" (encoder_type args)));
  clearbody ptr pte.

(** ** C8: exactly one cached matrix *)

(** C8. When exactly one of the two cache files exists,
    [encode_or_load_data] calls the encoder on the other set only, saves
    that matrix when the encoder succeeded, and makes no [np.load] at all:
    the inputs returned for the set whose file exists are the initial [[]]. *)
Theorem one_cached_file_is_never_loaded (args : Args) (dl : DataLoader) (w : World) :
  let ptr := os_path_join (workdir args)
               ("training_" +:+ encoder_type args +:+ "-comments.npy") in
  let pte := os_path_join (workdir args)
               ("test_" +:+ encoder_type args +:+ "-comments.npy") in
  let ytr := np_array (dl_get dl "REMOVED" "train") in
  let yte := np_array (dl_get dl "REMOVED" "test") in
  (is_Some (w_fs w !! ptr) -> w_fs w !! pte = None ->
   encode_or_load_data E args dl w
   = match encoder_outcome E args (dl_get dl "BODY" "test") with
     | Return m =>
         (Return ((PyEmptyList, ytr), (PyArray m, yte)),
          mk_world (<[pte := FNpy m]> (w_fs w))
            (w_log w ++ [mk_log INFO "Encoding test inputs" [];
                         mk_log INFO "Comments encoded: {}" [LShape (nd_shape m)]])
            (w_trace w ++ encoder_events args (dl_get dl "BODY" "test")
                     ++ [EvNpSave pte m]))
     | Raise e =>
         (Return ((PyEmptyList, ytr), (PyEmptyList, yte)),
          mk_world (w_fs w)
            (w_log w ++ [mk_log INFO "Encoding test inputs" [];
                         mk_log ERROR "Error while encoding inputs!" [];
                         mk_log ERROR "Error while encoding test dataset" [];
                         mk_log ERROR "{}" [LExn e]])
            (w_trace w ++ encoder_events args (dl_get dl "BODY" "test")))
     end)
  /\
  (w_fs w !! ptr = None -> is_Some (w_fs w !! pte) ->
   encode_or_load_data E args dl w
   = match encoder_outcome E args (dl_get dl "BODY" "train") with
     | Return m =>
         (Return ((PyArray m, ytr), (PyEmptyList, yte)),
          mk_world (<[ptr := FNpy m]> (w_fs w))
            (w_log w ++ [mk_log INFO "Encoding train inputs" [];
                         mk_log INFO "Comments encoded: {}" [LShape (nd_shape m)]])
            (w_trace w ++ encoder_events args (dl_get dl "BODY" "train")
                     ++ [EvNpSave ptr m]))
     | Raise e =>
         (Return ((PyEmptyList, ytr), (PyEmptyList, yte)),
          mk_world (w_fs w)
            (w_log w ++ [mk_log INFO "Encoding train inputs" [];
                         mk_log ERROR "Error while encoding inputs!" [];
                         mk_log ERROR "Error while encoding train dataset" [];
                         mk_log ERROR "{}" [LExn e]])
            (w_trace w ++ encoder_events args (dl_get dl "BODY" "train")))
     end).
Proof.
  intros ptr pte ytr yte. unfold encode_or_load_data.
  name_cache_paths args ptr pte Hne Hntr Hnte.
  split.
  - intros Htr Hte.
    pose proof (bool_decide_eq_true_2 _ Htr) as Btr.
    pose proof (bool_decide_is_Some_None _ Hte) as Bte.
    run. rewrite Btr. run. rewrite Bte. run. rewrite Btr. run. rewrite Bte. run.
    rewrite encode_and_save_run by exact Hnte.
    destruct (encoder_outcome E args (dl_get dl "BODY" "test")) as [m|e];
      run; now rewrite <- ?app_assoc.
  - intros Htr Hte.
    pose proof (bool_decide_is_Some_None _ Htr) as Btr.
    pose proof (bool_decide_eq_true_2 _ Hte) as Bte.
    run. rewrite Btr. run. rewrite Btr. run.
    rewrite encode_and_save_run by exact Hntr.
    destruct (encoder_outcome E args (dl_get dl "BODY" "train")) as [m|e]; run.
    + rewrite lookup_insert_ne by exact Hne. rewrite Bte. run.
      now rewrite <- ?app_assoc.
    + rewrite Bte. run. now rewrite <- ?app_assoc.
Qed.

(** ** [load_encoded_inputs] *)

Lemma load_encoded_inputs_npy (tr te : string) (a b : ndarray) (w : World) :
  w_fs w !! tr = Some (FNpy a) -> w_fs w !! te = Some (FNpy b) ->
  load_encoded_inputs tr te w
  = (Return (Some (a, b)),
     mk_world (w_fs w)
       (w_log w ++ [mk_log INFO "Loading encoded training matrix from: {}" [LStr tr];
                    mk_log INFO "Loading encoded test matrix from: {}" [LStr te]])
       (w_trace w ++ [EvNpLoad tr; EvNpLoad te])).
Proof.
  intros Ha Hb. unfold load_encoded_inputs, try_except, try_except_else.
  run. rewrite (np_load_npy tr a) by exact Ha. run.
  rewrite (np_load_npy te b) by exact Hb. run.
  now rewrite <- !app_assoc.
Qed.

(** Whatever the files hold, [load_encoded_inputs] returns normally, leaves
    the files alone and calls nothing but [np.load]; its value is [None]
    unless both files hold a matrix. *)
Lemma load_encoded_inputs_total (tr te : string) (w : World) :
  exists v w',
    load_encoded_inputs tr te w = (Return v, w')
    /\ w_fs w' = w_fs w
    /\ (w_trace w' = w_trace w ++ [EvNpLoad tr; EvNpLoad te]
        \/ w_trace w' = w_trace w ++ [EvNpLoad tr])
    /\ (v = None ->
        In (mk_log ERROR "Error loading encoded inputs as numpy file" [])
           (w_log w'))
    /\ (forall a b, v = Some (a, b) ->
        w_fs w !! tr = Some (FNpy a) /\ w_fs w !! te = Some (FNpy b)).
Proof.
  destruct (w_fs w !! tr) as [[a| | |]|] eqn:Htr.
  2-5: (destruct (np_load_not_npy tr (mk_world (w_fs w)
          (w_log w ++ [mk_log INFO "Loading encoded training matrix from: {}" [LStr tr]])
          (w_trace w))) as [e He]; [simpl; rewrite Htr; congruence|];
        unfold load_encoded_inputs, try_except, try_except_else, logger_exception;
        run; rewrite He; run;
        do 2 eexists; split; [reflexivity|]; simpl;
        repeat split; [now right | intros _; rewrite !in_app_iff; simpl; tauto
                      | discriminate | discriminate]).
  destruct (w_fs w !! te) as [[b| | |]|] eqn:Hte.
  2-5: (destruct (np_load_not_npy te (mk_world (w_fs w)
          ((w_log w ++ [mk_log INFO "Loading encoded training matrix from: {}" [LStr tr]])
             ++ [mk_log INFO "Loading encoded test matrix from: {}" [LStr te]])
          (w_trace w ++ [EvNpLoad tr]))) as [e He]; [simpl; rewrite Hte; congruence|];
        unfold load_encoded_inputs, try_except, try_except_else, logger_exception;
        run; rewrite (np_load_npy tr a) by exact Htr; run; rewrite He; run;
        do 2 eexists; split; [reflexivity|]; simpl;
        repeat split; [left; now rewrite <- app_assoc
                      | intros _; rewrite !in_app_iff; simpl; tauto
                      | discriminate | discriminate]).
  rewrite (load_encoded_inputs_npy tr te a b) by assumption.
  do 2 eexists; split; [reflexivity|]; simpl.
  repeat split; [now left | discriminate | congruence | congruence].
Qed.

(** ** C1: both matrices cached *)

(** C1. When both cache files exist, [encode_or_load_data] makes no encoder
    call and writes no file: the only library calls are [np.load] of the
    training file and then of the test file, and when the two files hold
    the matrices [a] and [b] the inputs returned are [a] and [b]. *)
Theorem cached_matrices_are_loaded (args : Args) (dl : DataLoader) (w : World) :
  let ptr := os_path_join (workdir args)
               ("training_" +:+ encoder_type args +:+ "-comments.npy") in
  let pte := os_path_join (workdir args)
               ("test_" +:+ encoder_type args +:+ "-comments.npy") in
  let ytr := np_array (dl_get dl "REMOVED" "train") in
  let yte := np_array (dl_get dl "REMOVED" "test") in
  is_Some (w_fs w !! ptr) -> is_Some (w_fs w !! pte) ->
  exists r w',
    encode_or_load_data E args dl w = (r, w')
    /\ w_fs w' = w_fs w
    /\ (w_trace w' = w_trace w ++ [EvNpLoad ptr; EvNpLoad pte]
        \/ w_trace w' = w_trace w ++ [EvNpLoad ptr])
    /\ (forall a b,
          w_fs w !! ptr = Some (FNpy a) -> w_fs w !! pte = Some (FNpy b) ->
          r = Return ((PyArray a, ytr), (PyArray b, yte))
          /\ w_trace w' = w_trace w ++ [EvNpLoad ptr; EvNpLoad pte]).
Proof.
  intros ptr pte ytr yte Htr Hte. unfold encode_or_load_data.
  name_cache_paths args ptr pte Hne Hntr Hnte.
  pose proof (bool_decide_eq_true_2 _ Htr) as Btr.
  pose proof (bool_decide_eq_true_2 _ Hte) as Bte.
  run. rewrite Btr. run. rewrite Bte. run.
  set (w1 := mk_world _ _ _).
  destruct (load_encoded_inputs_total ptr pte w1)
    as (v & w' & Hrun & Hfs & Htrace & _ & Hv).
  rewrite Hrun. run.
  destruct v as [[a b]|]; run; do 2 eexists; (split; [reflexivity|]).
  - split; [exact Hfs|]. split; [exact Htrace|].
    intros a' b' Ha Hb. destruct (Hv a b eq_refl) as [Ha' Hb'].
    simpl in Ha', Hb'. rewrite Ha in Ha'. rewrite Hb in Hb'.
    injection Ha' as ->. injection Hb' as ->.
    split; [reflexivity|].
    rewrite (load_encoded_inputs_npy ptr pte a b) in Hrun by assumption.
    injection Hrun as <-. reflexivity.
  - split; [exact Hfs|]. split; [exact Htrace|].
    intros a b Ha Hb.
    rewrite (load_encoded_inputs_npy ptr pte a b) in Hrun by assumption.
    discriminate Hrun.
Qed.

(** ** C5: the two encoders *)

(** C5. [encode_text] dispatches on [args.encoder_type].  For ['LASER'] the
    one library call is [LaserEncoder(args).encode(comments,
    parallel=args.parallel)], for ['LSI'] it is
    [LSIEncoder(keep_n=10000).fit_transform(comments)]; in both cases the
    matrix the encoder returns is what [encode_text] returns.  For any other
    name no encoder is called at all. *)
Theorem encode_text_selects_encoder (args : Args) (comments : list scalar) (w : World) :
  (encoder_type args = "LASER" ->
   exists lg,
     encode_text E args comments w
     = (encode E (LaserEncoder args) comments (parallel args),
        mk_world (w_fs w) (w_log w ++ [lg])
                 (w_trace w ++ [EvEncode (LaserEncoder args) comments (parallel args)]))
     /\ forall m, encode E (LaserEncoder args) comments (parallel args) = Return m ->
                  lg = mk_log INFO "Comments encoded: {}" [LShape (nd_shape m)])
  /\
  (encoder_type args = "LSI" ->
   exists lg,
     encode_text E args comments w
     = (fit_transform E (LSIEncoder 10000) comments,
        mk_world (w_fs w) (w_log w ++ [lg])
                 (w_trace w ++ [EvFitTransform (LSIEncoder 10000) comments]))
     /\ forall m, fit_transform E (LSIEncoder 10000) comments = Return m ->
                  lg = mk_log INFO "Comments encoded: {}" [LShape (nd_shape m)])
  /\
  (encoder_type args <> "LASER" -> encoder_type args <> "LSI" ->
   exists e,
     encode_text E args comments w
     = (Raise e,
        mk_world (w_fs w)
                 (w_log w ++ [mk_log ERROR "Error while encoding inputs!" []])
                 (w_trace w))).
Proof.
  rewrite encode_text_run. unfold encoder_outcome, encoder_events.
  split; [|split].
  - intros ->. simpl. eexists. split; [reflexivity|]. now intros m ->.
  - intros ->. simpl. eexists. split; [reflexivity|]. now intros m ->.
  - intros H1 H2.
    apply String.eqb_neq in H1. apply String.eqb_neq in H2. rewrite H1, H2.
    eexists. simpl. now rewrite app_nil_r.
Qed.

(** ** C2: errors while encoding and loading *)

Ltac in_log := simpl; rewrite ?in_app_iff; simpl; tauto.

(** C2. (1) When the encoder call raises [e], [encode_text] logs
    "Error while encoding inputs!" and raises the same [e].
    (2), (3) When that happens for a set whose cache file is missing,
    [encode_or_load_data] logs the error and the exception and goes on: it
    returns normally, with the initial [[]] as the encoded inputs of that
    set and nothing saved for it.
    (4) When one of the two [np.load] calls raises, [load_encoded_inputs]
    logs the error and returns [None]. *)
Theorem encoding_errors_are_logged_and_swallowed :
  (forall (args : Args) (comments : list scalar) (w : World) (e : exn),
     encoder_outcome E args comments = Raise e ->
     encode_text E args comments w
     = (Raise e,
        mk_world (w_fs w)
                 (w_log w ++ [mk_log ERROR "Error while encoding inputs!" []])
                 (w_trace w ++ encoder_events args comments)))
  /\
  (forall (args : Args) (dl : DataLoader) (w : World) (e : exn),
     let ptr := os_path_join (workdir args)
                  ("training_" +:+ encoder_type args +:+ "-comments.npy") in
     w_fs w !! ptr = None ->
     encoder_outcome E args (dl_get dl "BODY" "train") = Raise e ->
     exists te w',
       encode_or_load_data E args dl w
       = (Return ((PyEmptyList, np_array (dl_get dl "REMOVED" "train")),
                  (te, np_array (dl_get dl "REMOVED" "test"))), w')
       /\ In (mk_log ERROR "Error while encoding train dataset" []) (w_log w')
       /\ In (mk_log ERROR "{}" [LExn e]) (w_log w')
       /\ w_fs w' !! ptr = None)
  /\
  (forall (args : Args) (dl : DataLoader) (w : World) (e : exn),
     let pte := os_path_join (workdir args)
                  ("test_" +:+ encoder_type args +:+ "-comments.npy") in
     w_fs w !! pte = None ->
     encoder_outcome E args (dl_get dl "BODY" "test") = Raise e ->
     exists tr w',
       encode_or_load_data E args dl w
       = (Return ((tr, np_array (dl_get dl "REMOVED" "train")),
                  (PyEmptyList, np_array (dl_get dl "REMOVED" "test"))), w')
       /\ In (mk_log ERROR "Error while encoding test dataset" []) (w_log w')
       /\ In (mk_log ERROR "{}" [LExn e]) (w_log w')
       /\ w_fs w' !! pte = None)
  /\
  (forall (training_mat_path test_mat_path : string) (w : World),
     (forall a, w_fs w !! training_mat_path <> Some (FNpy a))
     \/ (forall b, w_fs w !! test_mat_path <> Some (FNpy b)) ->
     exists w',
       load_encoded_inputs training_mat_path test_mat_path w = (Return None, w')
       /\ w_fs w' = w_fs w
       /\ In (mk_log ERROR "Error loading encoded inputs as numpy file" [])
             (w_log w')).
Proof.
  split; [|split; [|split]].
  - intros args comments w e He. rewrite encode_text_run, He. reflexivity.
  - intros args dl w e ptr Htr He. unfold encode_or_load_data.
    set (pte := os_path_join (workdir args)
                  (tinp_file_format "test" (encoder_type args))).
    name_cache_paths args ptr pte Hne Hntr Hnte.
    pose proof (bool_decide_is_Some_None _ Htr) as Btr.
    run. rewrite Btr. run. rewrite Btr. run.
    rewrite encode_and_save_run by exact Hntr. rewrite He. run.
    destruct (bool_decide (is_Some (w_fs w !! pte))); run.
    + do 2 eexists. split; [reflexivity|]. repeat split; [in_log | in_log | exact Htr].
    + rewrite encode_and_save_run by exact Hnte.
      destruct (encoder_outcome E args (dl_get dl "BODY" "test")) as [m|e']; run;
        do 2 eexists; (split; [reflexivity|]); repeat split;
        try in_log; simpl; rewrite ?lookup_insert_ne by congruence; exact Htr.
  - intros args dl w e pte Hte He. unfold encode_or_load_data.
    set (ptr := os_path_join (workdir args)
                  (tinp_file_format "training" (encoder_type args))).
    name_cache_paths args ptr pte Hne Hntr Hnte.
    pose proof (bool_decide_is_Some_None _ Hte) as Bte.
    run. destruct (bool_decide (is_Some (w_fs w !! ptr))) eqn:Btr; run.
    + rewrite Bte. run. rewrite Btr. run. rewrite Bte. run.
      rewrite encode_and_save_run by exact Hnte. rewrite He. run.
      do 2 eexists. split; [reflexivity|]. repeat split; [in_log | in_log | exact Hte].
    + rewrite Btr. run. rewrite encode_and_save_run by exact Hntr.
      destruct (encoder_outcome E args (dl_get dl "BODY" "train")) as [m|e']; run.
      * rewrite lookup_insert_ne by exact Hne. rewrite Bte. run.
        rewrite encode_and_save_run by exact Hnte. rewrite He. run.
        do 2 eexists. split; [reflexivity|]. repeat split; try in_log.
        simpl. now rewrite lookup_insert_ne by exact Hne.
      * rewrite Bte. run.
        rewrite encode_and_save_run by exact Hnte. rewrite He. run.
        do 2 eexists. split; [reflexivity|]. repeat split; in_log.
  - intros tr te w Hbad.
    destruct (load_encoded_inputs_total tr te w)
      as (v & w' & Hrun & Hfs & _ & Hlog & Hv).
    destruct v as [[a b]|].
    + destruct (Hv a b eq_refl) as [Ha Hb].
      destruct Hbad as [Hbad|Hbad]; [now destruct (Hbad a) | now destruct (Hbad b)].
    + exists w'. auto.
Qed.

(** ** The order of the library calls *)

Lemma in_pipeline_order_app (mid : nat) (l1 l2 : list event) :
  in_pipeline_order l1 -> in_pipeline_order l2 ->
  Forall (fun ev => stage ev <= mid)%nat l1 ->
  Forall (fun ev => mid <= stage ev)%nat l2 ->
  in_pipeline_order (l1 ++ l2).
Proof.
  unfold in_pipeline_order. intros S1 S2 B1 B2.
  induction l1 as [|ev l1 IH]; simpl; [exact S2|].
  simpl in S1. apply StronglySorted_inv in S1 as [S1 Hev].
  apply Forall_cons_iff in B1 as [Bev B1].
  constructor; [now apply IH|].
  rewrite map_app. apply Forall_app. split; [exact Hev|].
  apply Forall_map. eapply Forall_impl; [exact B2|]. simpl. intros; lia.
Qed.

(** A program that makes no library call. *)
Lemma runs_in_silent {A} (lo hi : nat) (c : M A) :
  (forall w, w_trace (c w).2 = w_trace w) -> runs_in lo hi c.
Proof.
  intros H w. exists []. rewrite H, app_nil_r.
  repeat split; constructor.
Qed.

Lemma runs_in_emit (lo hi : nat) (ev : event) :
  (lo <= stage ev <= hi)%nat -> runs_in lo hi (emit ev).
Proof.
  intros H w. exists [ev]. simpl. repeat split.
  - repeat constructor.
  - now constructor.
Qed.

Lemma runs_in_bind {A B} (lo mid hi : nat) (c : M A) (k : A -> M B) :
  (lo <= mid <= hi)%nat ->
  runs_in lo mid c -> (forall a, runs_in mid hi (k a)) ->
  runs_in lo hi (bind c k).
Proof.
  intros Hm Hc Hk w. destruct (Hc w) as (l1 & T1 & S1 & B1).
  rewrite run_bind. destruct (c w) as [[a|e] w1]; simpl in T1.
  - destruct (Hk a w1) as (l2 & T2 & S2 & B2).
    exists (l1 ++ l2). rewrite T2, T1, app_assoc. split; [reflexivity|]. split.
    + apply (in_pipeline_order_app mid); auto.
      * eapply Forall_impl; [exact B1|]. simpl; intros; lia.
      * eapply Forall_impl; [exact B2|]. simpl; intros; lia.
    + apply Forall_app. split; (eapply Forall_impl; [eassumption|]);
        simpl; intros; lia.
  - exists l1. simpl. split; [exact T1|]. split; [exact S1|].
    eapply Forall_impl; [exact B1|]. simpl; intros; lia.
Qed.

Lemma runs_in_weaken {A} (lo hi lo' hi' : nat) (c : M A) :
  (lo' <= lo)%nat -> (hi <= hi')%nat -> runs_in lo hi c -> runs_in lo' hi' c.
Proof.
  intros Hlo Hhi Hc w. destruct (Hc w) as (l & T & S & B).
  exists l. repeat split; auto.
  eapply Forall_impl; [exact B|]. simpl; intros; lia.
Qed.

Lemma runs_in_for_each {A S} (n : nat) (l : list A) (body : A -> S -> M S) (s : S) :
  (forall x s', runs_in n n (body x s')) -> runs_in n n (for_each l body s).
Proof.
  intros Hb. revert s. induction l as [|x l IH]; intros s; simpl.
  - now apply runs_in_silent.
  - apply (runs_in_bind n n n); [lia | apply Hb | apply IH].
Qed.

Lemma runs_in_if {A} (lo hi : nat) (b : bool) (c1 c2 : M A) :
  runs_in lo hi c1 -> runs_in lo hi c2 -> runs_in lo hi (if b then c1 else c2).
Proof. now destruct b. Qed.

Create HintDb pipeline discriminated.

#[local] Hint Extern 1 (runs_in _ _ (ret _)) =>
  apply runs_in_silent; reflexivity : pipeline.
#[local] Hint Extern 1 (runs_in _ _ (raise _)) =>
  apply runs_in_silent; reflexivity : pipeline.
#[local] Hint Extern 1 (runs_in _ _ (logger _ _ _)) =>
  apply runs_in_silent; reflexivity : pipeline.
#[local] Hint Extern 1 (runs_in _ _ (logger_exception _)) =>
  apply runs_in_silent; reflexivity : pipeline.
#[local] Hint Extern 1 (runs_in _ _ (lift_result _)) =>
  apply runs_in_silent; reflexivity : pipeline.
#[local] Hint Extern 1 (runs_in _ _ get_fs) =>
  apply runs_in_silent; reflexivity : pipeline.
#[local] Hint Extern 1 (runs_in _ _ (write_file _ _)) =>
  apply runs_in_silent; reflexivity : pipeline.
#[local] Hint Extern 1 (runs_in _ _ (lift_status ?r)) =>
  apply runs_in_silent; intros ?; destruct r; reflexivity : pipeline.
#[local] Hint Extern 1 (runs_in _ _ (read_local _ ?v)) =>
  apply runs_in_silent; intros ?; destruct v; reflexivity : pipeline.
#[local] Hint Extern 1 (runs_in _ _ (py_shape ?x)) =>
  apply runs_in_silent; intros ?; destruct x; reflexivity : pipeline.
#[local] Hint Extern 1 (runs_in _ _ (emit _)) =>
  apply runs_in_emit; simpl; lia : pipeline.
#[local] Hint Extern 2 (runs_in ?n _ (bind _ _)) =>
  apply (runs_in_bind n n); [lia | | intros] : pipeline.
#[local] Hint Extern 2 (runs_in _ _ (if _ then _ else _)) =>
  apply runs_in_if : pipeline.
#[local] Hint Extern 2 (runs_in _ _ (for_each _ _ _)) =>
  apply runs_in_for_each; intros : pipeline.
#[local] Hint Extern 3 (runs_in _ _ (let (_, _) := ?p in _)) =>
  destruct p : pipeline.

(** Programs whose calls all belong to one step. *)
Ltac one_step := auto 30 with pipeline.

Lemma dict_get_silent {V} (d : dict V) (k : dkey) (w : World) :
  w_trace (dict_get d k w).2 = w_trace w.
Proof.
  induction d as [|[k' x] d IH]; simpl; [reflexivity|].
  now destruct (decide (k' = k)).
Qed.

#[local] Hint Extern 1 (runs_in _ _ (dict_get _ _)) =>
  apply runs_in_silent; intros ?; apply dict_get_silent : pipeline.

Lemma save_predictions_runs_in (args : Args) (y_pred : ndarray) :
  runs_in 5 5 (save_predictions E args y_pred).
Proof.
  unfold save_predictions, df_getitem, nd_iter, df_to_csv.
  apply (runs_in_bind 5 5); [lia | one_step | intros df].
  apply (runs_in_bind 5 5); [lia | | intros gold].
  { destruct (mapM _ _); one_step. }
  apply (runs_in_bind 5 5); [lia | | intros items].
  { destruct (nd_shape y_pred); one_step. }
  apply (runs_in_bind 5 5); [lia | | intros pred; one_step].
  apply runs_in_for_each. intros [i y_lbl] pred. unfold df_iloc.
  apply (runs_in_bind 5 5); [lia | | intros; one_step].
  destruct (df_rows pred !! i); one_step.
Qed.

Lemma roc_curve_runs_in (y_test y_score : ndarray) (n_classes : nat) :
  runs_in 4 4 (roc_curve E y_test y_score n_classes).
Proof.
  unfold roc_curve, shape0, numpy.
  apply (runs_in_bind 4 4); [lia | | intros n].
  { destruct (nd_shape y_test); one_step. }
  do 3 (apply (runs_in_bind 4 4); [lia | one_step | intros ?]).
  apply (runs_in_bind 4 4); [lia | one_step | intros _].
  apply (runs_in_bind 4 4); [lia | | intros [[fpr tpr] roc_auc]].
  { apply runs_in_for_each. intros i [[fpr tpr] roc_auc].
    do 2 (apply (runs_in_bind 4 4); [lia | one_step | intros ?]).
    apply (runs_in_bind 4 4); [lia | one_step | intros [f t]].
    one_step. }
  apply (runs_in_bind 4 4); [lia | one_step | intros [f t]].
  one_step.
Qed.

Lemma eval_model_runs_in (args : Args) (clf : classifier) (x_test : pyinputs)
    (y_test : ndarray) (target_names : list string) :
  runs_in 3 5 (eval_model E args clf x_test y_test target_names).
Proof.
  unfold eval_model, clf_predict, clf_score, clf_predict_proba, print.
  apply (runs_in_bind 3 3); [lia | one_step | intros y_pred].
  apply (runs_in_bind 3 3); [lia | one_step | intros _].
  apply (runs_in_bind 3 3); [lia | one_step | intros sc].
  apply (runs_in_bind 3 3); [lia | one_step | intros _].
  apply (runs_in_bind 3 3); [lia | one_step | intros report].
  apply (runs_in_bind 3 4); [lia | one_step | intros _].
  apply (runs_in_bind 4 4); [lia | one_step | intros y_score].
  apply (runs_in_bind 4 4); [lia | apply roc_curve_runs_in | intros _].
  apply (runs_in_weaken 5 5); [lia | lia | apply save_predictions_runs_in].
Qed.

Lemma make_classifier_and_predict_runs_in (args : Args)
    (train_set test_set : pyinputs * ndarray) (target_names : list string)
    (random_seed : Z) (clf_name : string) :
  runs_in 1 5 (make_classifier_and_predict E args train_set test_set
                 target_names random_seed clf_name).
Proof.
  unfold make_classifier_and_predict.
  destruct train_set as [x_train y_train], test_set as [x_test y_test].
  do 5 (apply (runs_in_bind 1 1); [lia | one_step | intros ?]).
  apply (runs_in_bind 1 2); [lia | | intros clf].
  { unfold clf_fit. one_step. }
  apply (runs_in_bind 2 3); [lia | | intros _].
  { unfold save_model, joblib_dump. one_step. }
  apply (runs_in_bind 3 5); [lia | apply eval_model_runs_in | intros _].
  one_step.
Qed.

(** ** [save_predictions] *)

(** A loop whose body only ever hands its state back leaves the state and
    the world as they were, however many rounds it makes before raising. *)
Lemma for_each_inert {A S} (l : list A) (body : A -> S -> M S) (s : S) (w : World) :
  (forall x s' w', body x s' w' = (Return s', w')
                   \/ exists e, body x s' w' = (Raise e, w')) ->
  for_each l body s w = (Return s, w)
  \/ exists e, for_each l body s w = (Raise e, w).
Proof.
  intros Hb. induction l as [|x l IH]; simpl; [now left|].
  rewrite run_bind. destruct (Hb x s w) as [-> | [e ->]]; [exact IH|].
  right. now exists e.
Qed.

(** What a successful [save_predictions] has done: read the gold file, kept
    its [BODY] and [REMOVED] columns, and written exactly those rows, under
    the header [ID], [BODY], [REMOVED], to [args.predictions_file].  The
    stores of the loop went to the rows handed out by [iloc]; [y_pred] has
    left no mark on what is written. *)
Lemma save_predictions_success (args : Args) (y_pred : ndarray) (w w' : World) :
  save_predictions E args y_pred w = (Return tt, w') ->
  exists df idxs,
    read_csv E (test_file args) (w_fs w) = Return df
    /\ mapM (fun c => index_of c (df_columns df)) ["BODY"; "REMOVED"] = Some idxs
    /\ w' = mk_world
              (<[predictions_file args :=
                   FDelim TAB ["ID"; "BODY"; "REMOVED"]
                     (zip_with cons (df_index df)
                        (map (fun r => map (fun j => nth j r (SStr "")) idxs)
                             (df_rows df)))]> (w_fs w))
              (w_log w)
              (w_trace w ++ [EvReadCsv (test_file args);
                             EvToCsv (predictions_file args)]).
Proof.
  unfold save_predictions, df_getitem, nd_iter, df_to_csv, copy_deepcopy. run.
  destruct (read_csv E (test_file args) (w_fs w)) as [df|e]; run; [|discriminate].
  destruct (mapM _ (_ : list string)) as [idxs|] eqn:Hidx; run; [|discriminate].
  destruct (nd_shape y_pred) as [|n rest]; run; [discriminate|].
  match goal with
  | |- context [for_each ?l ?b ?s ?w0] =>
      destruct (for_each_inert l b s w0) as [-> | [e ->]]
  end.
  - intros [i y_lbl] pred w0. unfold df_iloc. run.
    destruct (df_rows pred !! i); run; [now left | right; now eexists].
  - run. intros H. injection H as <-.
    exists df, idxs. rewrite <- app_assoc. auto.
  - run. discriminate.
Qed.

(** ** [eval_model] and [make_classifier_and_predict], call by call *)

Lemma roc_curve_trace (y_test y_score : ndarray) (n_classes : nat) (w : World) :
  exists roc_events,
    w_trace (roc_curve E y_test y_score n_classes w).2 = w_trace w ++ roc_events
    /\ Forall (fun ev => stage ev = 4%nat) roc_events.
Proof.
  destruct (roc_curve_runs_in y_test y_score n_classes w) as (l & T & _ & B).
  exists l. split; [exact T|].
  eapply Forall_impl; [exact B|]. simpl; intros; lia.
Qed.

Lemma eval_model_success (args : Args) (clf : classifier) (x_test : pyinputs)
    (y_test : ndarray) (target_names : list string) (w w' : World) :
  eval_model E args clf x_test y_test target_names w = (Return tt, w') ->
  exists y_pred report roc_events,
    predict E clf x_test = Return y_pred
    /\ classification_report E y_test y_pred target_names = Return report
    /\ Forall (fun ev => stage ev = 4%nat) roc_events
    /\ w_trace w'
       = w_trace w
         ++ [EvPredict clf x_test; EvScore clf x_test y_test;
             EvClassificationReport y_test y_pred target_names;
             EvPrint report; EvPredictProba clf x_test]
         ++ roc_events
         ++ [EvReadCsv (test_file args); EvToCsv (predictions_file args)].
Proof.
  unfold eval_model, clf_predict, clf_score, clf_predict_proba, print. run.
  destruct (predict E clf x_test) as [y_pred|e] eqn:Hpred; run; [|discriminate].
  destruct (score E clf x_test y_test) as [sc|e]; run; [|discriminate].
  destruct (classification_report E y_test y_pred target_names)
    as [report|e] eqn:Hrep; run; [|discriminate].
  destruct (predict_proba E clf x_test) as [y_score|e]; run; [|discriminate].
  match goal with
  | |- context [roc_curve E y_test y_score 2 ?w0] =>
      destruct (roc_curve_trace y_test y_score 2 w0) as (roc_events & T & B);
      destruct (roc_curve E y_test y_score 2 w0) as [[[]|e] w1]
  end; run; [|discriminate].
  intros H. apply save_predictions_success in H as (df & idxs & _ & _ & ->).
  exists y_pred, report, roc_events. repeat split; auto.
  simpl in *. rewrite T. now rewrite <- !app_assoc.
Qed.

(** The run of [make_classifier_and_predict] for one of the three names. *)
Lemma make_classifier_and_predict_run (args : Args) (x_train x_test y_train y_test : ndarray)
    (target_names : list string) (random_seed : Z) (clf_name : string)
    (est : estimator) (w : World) :
  In (clf_name, est)
     [("randomforest", RandomForestClassifier 100 1000 100 8 random_seed true);
      ("svc", SVC "auto" random_seed true);
      ("mlp", MLPClassifier [512; 128]%Z "relu" true random_seed)] ->
  let path := os_path_join (workdir args)
                (clf_save_name args +:+ "_" +:+ clf_type args +:+ ".pkl") in
  let clf := fitted_on est (PyArray x_train) y_train in
  let lg :=
    w_log w
    ++ [mk_log DEBUG "x-train: {} | y-train: {}"
               [LShape (nd_shape x_train); LShape (nd_shape y_train)];
        mk_log DEBUG "x-test: {} | y-test: {}"
               [LShape (nd_shape x_test); LShape (nd_shape y_test)];
        mk_log DEBUG "Target names: {}" [LNames target_names]] in
  make_classifier_and_predict E args (PyArray x_train, y_train)
    (PyArray x_test, y_test) target_names random_seed clf_name w
  = match fit E est (PyArray x_train) y_train with
    | Some e =>
        (Raise e,
         mk_world (w_fs w) lg (w_trace w ++ [EvFit est (PyArray x_train) y_train]))
    | None =>
        match eval_model E args clf (PyArray x_test) y_test target_names
                (mk_world (<[path := FPkl clf]> (w_fs w)) lg
                   (w_trace w ++ [EvFit est (PyArray x_train) y_train;
                                  EvJoblibDump clf path]))
        with
        | (Return _, w') => (Return clf, w')
        | (Raise e, w') => (Raise e, w')
        end
    end.
Proof.
  intros Hsel path clf lg.
  unfold make_classifier_and_predict, clf_fit, save_model, joblib_dump, py_shape,
    lift_status, format_pkl.
  fold path.
  simpl in Hsel.
  destruct Hsel as [H|[H|[H|[]]]]; injection H as <- <-; simpl String.eqb;
    cbv iota; unfold read_local, unfitted; run; cbn [clf_estimator];
    (match goal with |- context [fit E ?e ?x ?y] => destruct (fit E e x y) end);
    run; cbn [clf_estimator]; rewrite <- ?app_assoc; simpl app; try reflexivity;
    fold clf; fold lg;
    (match goal with |- context [eval_model E ?a ?c ?x ?y ?t ?w0] =>
       destruct (eval_model E a c x y t w0) as [[[]|e'] w3] end); reflexivity.
Qed.

(** ** C3: the classifier chosen by name *)

(** C3. For each of the three names the classifier constructed is the one
    listed: [RandomForestClassifier(max_depth=100, n_estimators=1000,
    max_features=100, n_jobs=8, random_state=random_seed, verbose=True)] for
    "randomforest", [SVC(gamma='auto', random_state=random_seed,
    verbose=True)] for "svc", [MLPClassifier(hidden_layer_sizes=(512, 128),
    activation='relu', early_stopping=True, random_state=random_seed)] for
    "mlp".  That object is the one [fit] is called on with the training set;
    it is the one saved and evaluated, and it is the value returned whenever
    fitting and evaluation go through. *)
Theorem classifier_is_selected_by_name (args : Args)
    (x_train x_test y_train y_test : ndarray) (target_names : list string)
    (random_seed : Z) (clf_name : string) (est : estimator) (w : World) :
  In (clf_name, est)
     [("randomforest", RandomForestClassifier 100 1000 100 8 random_seed true);
      ("svc", SVC "auto" random_seed true);
      ("mlp", MLPClassifier [512; 128]%Z "relu" true random_seed)] ->
  let path := os_path_join (workdir args)
                (clf_save_name args +:+ "_" +:+ clf_type args +:+ ".pkl") in
  let clf := fitted_on est (PyArray x_train) y_train in
  exists lg,
    make_classifier_and_predict E args (PyArray x_train, y_train)
      (PyArray x_test, y_test) target_names random_seed clf_name w
    = match fit E est (PyArray x_train) y_train with
      | Some e =>
          (Raise e,
           mk_world (w_fs w) lg (w_trace w ++ [EvFit est (PyArray x_train) y_train]))
      | None =>
          match eval_model E args clf (PyArray x_test) y_test target_names
                  (mk_world (<[path := FPkl clf]> (w_fs w)) lg
                     (w_trace w ++ [EvFit est (PyArray x_train) y_train;
                                    EvJoblibDump clf path]))
          with
          | (Return _, w') => (Return clf, w')
          | (Raise e, w') => (Raise e, w')
          end
      end.
Proof.
  intros Hsel path clf. eexists.
  exact (make_classifier_and_predict_run args x_train x_test y_train y_test
           target_names random_seed clf_name est w Hsel).
Qed.

(** ** C9: a name outside the three *)

(** C9. For a [clf_name] other than "randomforest", "svc" and "mlp" no
    branch assigns [clf]; the call raises before any library call is made
    and before any file is written, and with matrices as inputs the
    exception is the [UnboundLocalError] of reading [clf] at [clf.fit]. *)
Theorem unknown_classifier_name_is_unbound (args : Args)
    (train_set test_set : pyinputs * ndarray) (target_names : list string)
    (random_seed : Z) (clf_name : string) (w : World) :
  clf_name <> "randomforest" -> clf_name <> "svc" -> clf_name <> "mlp" ->
  exists e w',
    make_classifier_and_predict E args train_set test_set target_names
      random_seed clf_name w = (Raise e, w')
    /\ w_fs w' = w_fs w
    /\ w_trace w' = w_trace w
    /\ (forall x_train,
          train_set.1 = PyArray x_train ->
          forall x_test, test_set.1 = PyArray x_test ->
          e = Exn "UnboundLocalError"
                  "local variable 'clf' referenced before assignment"
          /\ w_log w'
             = w_log w
               ++ [mk_log DEBUG "x-train: {} | y-train: {}"
                          [LShape (nd_shape x_train); LShape (nd_shape train_set.2)];
                   mk_log DEBUG "x-test: {} | y-test: {}"
                          [LShape (nd_shape x_test); LShape (nd_shape test_set.2)];
                   mk_log DEBUG "Target names: {}" [LNames target_names]]).
Proof.
  intros H1 H2 H3.
  apply String.eqb_neq in H1. apply String.eqb_neq in H2. apply String.eqb_neq in H3.
  unfold make_classifier_and_predict. rewrite H1, H2, H3.
  destruct train_set as [[|x_train] y_train], test_set as [[|x_test] y_test];
    unfold py_shape, read_local; run; do 2 eexists;
    (split; [reflexivity|]); simpl; repeat split; try discriminate.
  match goal with
  | Ha : PyArray _ = PyArray _, Hb : PyArray _ = PyArray _ |- _ =>
      injection Ha as <-; injection Hb as <-
  end.
  now rewrite <- !app_assoc.
Qed.

(** A normal return of [make_classifier_and_predict], call by call. *)
Lemma make_classifier_and_predict_success (args : Args)
    (train_set test_set : pyinputs * ndarray) (target_names : list string)
    (random_seed : Z) (clf_name : string) (w w' : World) (clf : classifier) :
  make_classifier_and_predict E args train_set test_set target_names
    random_seed clf_name w = (Return clf, w') ->
  let path := os_path_join (workdir args)
                (clf_save_name args +:+ "_" +:+ clf_type args +:+ ".pkl") in
  clf = fitted_on (clf_estimator clf) train_set.1 train_set.2
  /\ exists y_pred report roc_events,
       Forall (fun ev => stage ev = 4%nat) roc_events
       /\ w_trace w'
          = w_trace w
            ++ [EvFit (clf_estimator clf) train_set.1 train_set.2;
                EvJoblibDump clf path]
            ++ [EvPredict clf test_set.1; EvScore clf test_set.1 test_set.2;
                EvClassificationReport test_set.2 y_pred target_names;
                EvPrint report; EvPredictProba clf test_set.1]
            ++ roc_events
            ++ [EvReadCsv (test_file args); EvToCsv (predictions_file args)].
Proof.
  destruct train_set as [[|x_train] y_train], test_set as [[|x_test] y_test];
    try (unfold make_classifier_and_predict, py_shape; run; discriminate).
  intros Hrun path.
  assert (Hsel : exists est,
    In (clf_name, est)
       [("randomforest", RandomForestClassifier 100 1000 100 8 random_seed true);
        ("svc", SVC "auto" random_seed true);
        ("mlp", MLPClassifier [512; 128]%Z "relu" true random_seed)]).
  { destruct (String.eqb clf_name "randomforest") eqn:H1;
      [apply String.eqb_eq in H1 as ->; eexists; simpl; eauto|].
    destruct (String.eqb clf_name "svc") eqn:H2;
      [apply String.eqb_eq in H2 as ->; eexists; simpl; eauto|].
    destruct (String.eqb clf_name "mlp") eqn:H3;
      [apply String.eqb_eq in H3 as ->; eexists; simpl; eauto|].
    exfalso. revert Hrun.
    unfold make_classifier_and_predict, py_shape, read_local.
    rewrite H1, H2, H3. run. discriminate. }
  destruct Hsel as [est Hsel].
  rewrite (make_classifier_and_predict_run _ _ _ _ _ _ _ _ est _ Hsel) in Hrun.
  destruct (fit E est (PyArray x_train) y_train); [discriminate|].
  match type of Hrun with
  | context [eval_model E ?a ?c ?x ?y ?t ?w0] =>
      destruct (eval_model E a c x y t w0) as [[[]|e] w3] eqn:Heval
  end; [|discriminate].
  injection Hrun as <- <-.
  apply eval_model_success in Heval
    as (y_pred & report & roc_events & _ & _ & Hroc & Htrace).
  split; [reflexivity|].
  exists y_pred, report, roc_events. split; [exact Hroc|].
  rewrite Htrace. simpl. now rewrite <- !app_assoc.
Qed.

(** ** C4: the order of the steps *)

(** C4. In every run of [make_classifier_and_predict], whatever its outcome,
    the library calls come in pipeline order: the fit, then the dump of the
    model, then the calls of [eval_model]; and in every run of [eval_model]
    prediction, scoring and the report come before the ROC metrics, which
    come before the predictions file is read for and written.  A run that
    returns has made all of them: it fitted the selected classifier on the
    training set, dumped that fitted classifier, evaluated it on the test
    set and wrote the predictions file last. *)
Theorem pipeline_steps_run_in_order :
  (forall args train_set test_set target_names random_seed clf_name,
     runs_in 1 5 (make_classifier_and_predict E args train_set test_set
                    target_names random_seed clf_name))
  /\
  (forall args train_set test_set target_names random_seed clf_name w w' clf,
     make_classifier_and_predict E args train_set test_set target_names
       random_seed clf_name w = (Return clf, w') ->
     exists y_pred report roc_events,
       Forall (fun ev => stage ev = 4%nat) roc_events
       /\ w_trace w'
          = w_trace w
            ++ [EvFit (clf_estimator clf) train_set.1 train_set.2;
                EvJoblibDump (fitted_on (clf_estimator clf) train_set.1 train_set.2)
                  (os_path_join (workdir args)
                     (clf_save_name args +:+ "_" +:+ clf_type args +:+ ".pkl"))]
            ++ [EvPredict clf test_set.1; EvScore clf test_set.1 test_set.2;
                EvClassificationReport test_set.2 y_pred target_names;
                EvPrint report; EvPredictProba clf test_set.1]
            ++ roc_events
            ++ [EvReadCsv (test_file args); EvToCsv (predictions_file args)])
  /\
  (forall args clf x_test y_test target_names,
     runs_in 3 5 (eval_model E args clf x_test y_test target_names))
  /\
  (forall args clf x_test y_test target_names w w',
     eval_model E args clf x_test y_test target_names w = (Return tt, w') ->
     exists y_pred report roc_events,
       Forall (fun ev => stage ev = 4%nat) roc_events
       /\ w_trace w'
          = w_trace w
            ++ [EvPredict clf x_test; EvScore clf x_test y_test;
                EvClassificationReport y_test y_pred target_names;
                EvPrint report; EvPredictProba clf x_test]
            ++ roc_events
            ++ [EvReadCsv (test_file args); EvToCsv (predictions_file args)]).
Proof.
  split; [|split; [|split]].
  - intros. apply make_classifier_and_predict_runs_in.
  - intros args train_set test_set target_names random_seed clf_name w w' clf Hrun.
    apply make_classifier_and_predict_success in Hrun
      as (Hclf & y_pred & report & roc_events & Hroc & Htrace).
    exists y_pred, report, roc_events. split; [exact Hroc|].
    rewrite <- Hclf. exact Htrace.
  - intros. apply eval_model_runs_in.
  - intros args clf x_test y_test target_names w w' Hrun.
    apply eval_model_success in Hrun
      as (y_pred & report & roc_events & _ & _ & Hroc & Htrace).
    now exists y_pred, report, roc_events.
Qed.

(** ** C6: the shape of the encoded matrices *)

(** C6, as amended.  [load_encoded_inputs] returns the two arrays the files
    hold, as they are, and [encode_text] returns the array the encoder
    returned, as it is: each keeps the shape it was stored or produced
    with, and nothing else constrains the shapes.  In particular the two
    matrices loaded are of shape [N x 1024] when the two files hold matrices
    of that shape. *)
Theorem encoded_matrices_keep_their_shape :
  (forall (tr te : string) (w : World) (a b : ndarray),
     w_fs w !! tr = Some (FNpy a) -> w_fs w !! te = Some (FNpy b) ->
     exists w', load_encoded_inputs tr te w = (Return (Some (a, b)), w'))
  /\
  (forall (tr te : string) (w w' : World) (a b : ndarray),
     load_encoded_inputs tr te w = (Return (Some (a, b)), w') ->
     w_fs w !! tr = Some (FNpy a) /\ w_fs w !! te = Some (FNpy b))
  /\
  (forall (tr te : string) (w : World) (a b : ndarray),
     w_fs w !! tr = Some (FNpy a) -> w_fs w !! te = Some (FNpy b) ->
     has_width 1024 a -> has_width 1024 b ->
     exists a' b' w',
       load_encoded_inputs tr te w = (Return (Some (a', b')), w')
       /\ has_width 1024 a' /\ has_width 1024 b')
  /\
  (forall (args : Args) (comments : list scalar) (w w' : World) (m : ndarray),
     encode_text E args comments w = (Return m, w') ->
     encoder_outcome E args comments = Return m).
Proof.
  split; [|split; [|split]].
  - intros tr te w a b Ha Hb. eexists. now apply load_encoded_inputs_npy.
  - intros tr te w w' a b Hrun.
    destruct (load_encoded_inputs_total tr te w) as (v & w1 & Hrun' & _ & _ & _ & Hv).
    rewrite Hrun in Hrun'. injection Hrun' as <- _. now apply Hv.
  - intros tr te w a b Ha Hb Wa Wb. exists a, b. eexists.
    split; [now apply load_encoded_inputs_npy | now split].
  - intros args comments w w' m. rewrite encode_text_run. congruence.
Qed.

End Runs.

(** * The programs on the sample run *)

Ltac by_compute := vm_compute; first [reflexivity | eexists; reflexivity].

(** ** C6: matrices that are not [N x 1024] *)

(** C6, as stated, fails.  With a 2 x 3 matrix in the training file and a
    1 x 2 matrix in the test file, [load_encoded_inputs] returns those two
    matrices: neither is [N x 1024], and the two widths differ. *)
Lemma load_encoded_inputs_not_N_by_1024 :
  ~ (forall (tr te : string) (w w' : World) (a b : ndarray),
       load_encoded_inputs tr te w = (Return (Some (a, b)), w') ->
       has_width 1024 a /\ has_width 1024 b)
  /\
  ~ (forall (tr te : string) (w w' : World) (a b : ndarray),
       load_encoded_inputs tr te w = (Return (Some (a, b)), w') ->
       exists width, has_width width a /\ has_width width b).
Proof.
  pose proof (load_encoded_inputs_npy
                "work/training_LASER-comments.npy" "work/test_LASER-comments.npy"
                Sample.m_train Sample.m_test Sample.w_cached eq_refl eq_refl)
    as Hrun.
  split; intros H; apply H in Hrun.
  - destruct Hrun as [[n Hn] _]. discriminate Hn.
  - destruct Hrun as (width & [n Hn] & [n' Hn']).
    simpl in Hn, Hn'. congruence.
Qed.

Lemma encoded_matrices_keep_their_shape_witness :
  exists w',
    load_encoded_inputs
      "work/training_LASER-comments.npy" "work/test_LASER-comments.npy"
      Sample.w_cached
    = (Return (Some (Sample.m_train, Sample.m_test)), w').
Proof.
  apply (proj1 (encoded_matrices_keep_their_shape (Sample.ext true)));
    by_compute.
Defined.

(** ** C7: the predictions file *)

(** C7.  On the sample gold file (one comment, removed) and a prediction of
    "kept", [save_predictions] returns normally and writes a tab-separated
    file with the header [ID], [BODY], [REMOVED] and one row per gold row,
    numbered under [ID]; but the file has no [Prediction] column, and it is
    the same file whatever label was predicted. *)
Example save_predictions_loses_the_predictions :
  let written :=
    FDelim TAB ["ID"; "BODY"; "REMOVED"]
           [[SNum 0; SStr "third comment"; SNum 1]] in
  (forall y_lbl : scalar,
     save_predictions (Sample.ext true) Sample.args
       (mk_ndarray [1%nat] [y_lbl]) Sample.w_fresh
     = (Return tt,
        mk_world (<["work/predictions.tsv" := written]> Sample.fs_gold) []
                 [EvReadCsv "data/test.csv"; EvToCsv "work/predictions.tsv"]))
  /\ ~ file_has_column "Prediction" written.
Proof.
  split.
  - intros y_lbl. reflexivity.
  - simpl. intros [H|[H|[H|[]]]]; discriminate H.
Qed.

(** ** The hypotheses of the theorems above are met on the sample run *)

Lemma cached_matrices_are_loaded_witness :
  exists r w',
    encode_or_load_data (Sample.ext true) Sample.args Sample.loader Sample.w_cached
    = (r, w')
    /\ r = Return ((PyArray Sample.m_train, np_array [SNum 0; SNum 1]),
                   (PyArray Sample.m_test, np_array [SNum 1])).
Proof.
  destruct (cached_matrices_are_loaded (Sample.ext true) Sample.args
              Sample.loader Sample.w_cached)
    as (r & w' & Hrun & _ & _ & Hv); [by_compute | by_compute |].
  exists r, w'. split; [exact Hrun|].
  apply (Hv Sample.m_train Sample.m_test); reflexivity.
Defined.

Lemma encoding_errors_are_logged_and_swallowed_witness :
  (exists w',
     encode_text (Sample.ext false) Sample.args Sample.body_train Sample.w_fresh
     = (Raise (Exn "RuntimeError" "encoder failed"), w'))
  /\ (exists te w',
        encode_or_load_data (Sample.ext false) Sample.args Sample.loader
          Sample.w_fresh
        = (Return ((PyEmptyList, np_array [SNum 0; SNum 1]),
                   (te, np_array [SNum 1])), w'))
  /\ (exists tr w',
        encode_or_load_data (Sample.ext false) Sample.args Sample.loader
          Sample.w_train_cached
        = (Return ((tr, np_array [SNum 0; SNum 1]),
                   (PyEmptyList, np_array [SNum 1])), w'))
  /\ (exists w',
        load_encoded_inputs "work/training_LASER-comments.npy"
          "work/test_LASER-comments.npy" Sample.w_train_cached
        = (Return None, w')).
Proof.
  destruct (encoding_errors_are_logged_and_swallowed (Sample.ext false))
    as (H1 & H2 & H3 & H4).
  split; [|split; [|split]].
  - eexists. apply H1. reflexivity.
  - destruct (H2 Sample.args Sample.loader Sample.w_fresh
                (Exn "RuntimeError" "encoder failed"))
      as (te & w' & Hrun & _); [by_compute | by_compute |].
    now exists te, w'.
  - destruct (H3 Sample.args Sample.loader Sample.w_train_cached
                (Exn "RuntimeError" "encoder failed"))
      as (tr & w' & Hrun & _); [by_compute | by_compute |].
    now exists tr, w'.
  - destruct (H4 "work/training_LASER-comments.npy"
                "work/test_LASER-comments.npy" Sample.w_train_cached)
      as (w' & Hrun & _).
    + right. intros b. vm_compute. discriminate.
    + now exists w'.
Defined.

Lemma classifier_is_selected_by_name_witness :
  exists w',
    make_classifier_and_predict (Sample.ext true) Sample.args
      (PyArray Sample.m_train, np_array [SNum 0; SNum 1])
      (PyArray Sample.m_test, np_array [SNum 1])
      ["kept"; "removed"] 7 "mlp" Sample.w_fresh
    = (Return (fitted_on (MLPClassifier [512; 128]%Z "relu" true 7)
                 (PyArray Sample.m_train) (np_array [SNum 0; SNum 1])), w').
Proof.
  destruct (classifier_is_selected_by_name (Sample.ext true) Sample.args
              Sample.m_train Sample.m_test
              (np_array [SNum 0; SNum 1]) (np_array [SNum 1])
              ["kept"; "removed"] 7 "mlp"
              (MLPClassifier [512; 128]%Z "relu" true 7) Sample.w_fresh)
    as [lg Hrun]; [simpl; tauto|].
  rewrite Hrun. eexists. vm_compute. reflexivity.
Defined.

Lemma pipeline_steps_run_in_order_witness :
  exists clf w' y_pred report roc_events,
    make_classifier_and_predict (Sample.ext true) Sample.args
      (PyArray Sample.m_train, np_array [SNum 0; SNum 1])
      (PyArray Sample.m_test, np_array [SNum 1])
      ["kept"; "removed"] 7 "mlp" Sample.w_fresh
    = (Return clf, w')
    /\ w_trace w'
       = [EvFit (clf_estimator clf) (PyArray Sample.m_train)
                (np_array [SNum 0; SNum 1]);
          EvJoblibDump clf "work/clf_mlp.pkl";
          EvPredict clf (PyArray Sample.m_test);
          EvScore clf (PyArray Sample.m_test) (np_array [SNum 1]);
          EvClassificationReport (np_array [SNum 1]) y_pred ["kept"; "removed"];
          EvPrint report;
          EvPredictProba clf (PyArray Sample.m_test)]
         ++ roc_events
         ++ [EvReadCsv "data/test.csv"; EvToCsv "work/predictions.tsv"].
Proof.
  eassert (Hrun : make_classifier_and_predict (Sample.ext true) Sample.args
                    (PyArray Sample.m_train, np_array [SNum 0; SNum 1])
                    (PyArray Sample.m_test, np_array [SNum 1])
                    ["kept"; "removed"] 7 "mlp" Sample.w_fresh
                  = (Return _, _)) by (vm_compute; reflexivity).
  destruct (proj1 (proj2 (pipeline_steps_run_in_order (Sample.ext true)))
              _ _ _ _ _ _ _ _ _ Hrun)
    as (y_pred & report & roc_events & _ & Htrace).
  do 2 eexists. exists y_pred, report, roc_events.
  split; [exact Hrun | exact Htrace].
Defined.

Lemma encode_text_selects_encoder_witness :
  exists lg,
    encode_text (Sample.ext true) Sample.args Sample.body_test Sample.w_fresh
    = (Return (Sample.embed Sample.body_test),
       mk_world Sample.fs_gold [lg]
                [EvEncode (LaserEncoder Sample.args) Sample.body_test false]).
Proof.
  destruct (proj1 (encode_text_selects_encoder (Sample.ext true) Sample.args
                     Sample.body_test Sample.w_fresh))
    as (lg & Hrun & _); [reflexivity|].
  exists lg. exact Hrun.
Defined.

Lemma one_cached_file_is_never_loaded_witness :
  (encode_or_load_data (Sample.ext true) Sample.args Sample.loader
     Sample.w_train_cached).1
  = Return ((PyEmptyList, np_array [SNum 0; SNum 1]),
            (PyArray (Sample.embed Sample.body_test), np_array [SNum 1])).
Proof.
  rewrite (proj1 (one_cached_file_is_never_loaded (Sample.ext true) Sample.args
                    Sample.loader Sample.w_train_cached));
    [reflexivity | by_compute | by_compute].
Defined.

Lemma unknown_classifier_name_is_unbound_witness :
  exists w',
    make_classifier_and_predict (Sample.ext true) Sample.args
      (PyArray Sample.m_train, np_array [SNum 0; SNum 1])
      (PyArray Sample.m_test, np_array [SNum 1])
      ["kept"; "removed"] 7 "knn" Sample.w_fresh
    = (Raise (Exn "UnboundLocalError"
                  "local variable 'clf' referenced before assignment"), w')
    /\ w_trace w' = [].
Proof.
  destruct (unknown_classifier_name_is_unbound (Sample.ext true) Sample.args
              (PyArray Sample.m_train, np_array [SNum 0; SNum 1])
              (PyArray Sample.m_test, np_array [SNum 1])
              ["kept"; "removed"] 7 "knn" Sample.w_fresh)
    as (e & w' & Hrun & _ & Htrace & He); [discriminate | discriminate | discriminate |].
  destruct (He Sample.m_train eq_refl Sample.m_test eq_refl) as [-> _].
  exists w'. split; [exact Hrun | exact Htrace].
Defined.

(** * Further properties *)

Section Further.

Variable E : Externals.

(** ** The matrix cache of [encode_or_load_data] *)

Ltac cache_paths args ptr pte Hne Hntr Hnte :=
  set (ptr := os_path_join (workdir args)
                (tinp_file_format "training" (encoder_type args))) in *;
  set (pte := os_path_join (workdir args)
                (tinp_file_format "test" (encoder_type args))) in *;
  assert (Hne : ptr <> pte) by apply train_test_paths_differ;
  assert (Hntr : ends_with ".npy" ptr = true)
    by (apply os_path_join_ends_with;
        exact (tinp_file_ends_with_npy "training" (encoder_type args)));
  assert (Hnte : ends_with ".npy" pte = true)
    by (apply os_path_join_ends_with;
        exact (tinp_file_ends_with_npy "test" (encoder_type args)));
  clearbody ptr pte.

(** The block of one set, from the existence test on. *)
Lemma encode_set_run (args : Args) (p : string) (comments : list scalar)
    (start failed : string) (w : World) :
  ends_with ".npy" p = true ->
  (let* ex := os_path_exists p in
   if negb ex then
     logger INFO start [];;
     try_except_else
       (encode_text E args comments)
       (fun e => logger ERROR failed [];; logger_exception e;; ret PyEmptyList)
       (fun m => np_save p m;; ret (PyArray m))
   else ret PyEmptyList) w
  = if bool_decide (is_Some (w_fs w !! p)) then (Return PyEmptyList, w)
    else
      match encoder_outcome E args comments with
      | Return m =>
          (Return (PyArray m),
           mk_world (<[p := FNpy m]> (w_fs w))
             (w_log w ++ [mk_log INFO start [];
                          mk_log INFO "Comments encoded: {}" [LShape (nd_shape m)]])
             (w_trace w ++ encoder_events args comments ++ [EvNpSave p m]))
      | Raise e =>
          (Return PyEmptyList,
           mk_world (w_fs w)
             (w_log w ++ [mk_log INFO start [];
                          mk_log ERROR "Error while encoding inputs!" [];
                          mk_log ERROR failed [];
                          mk_log ERROR "{}" [LExn e]])
             (w_trace w ++ encoder_events args comments))
      end.
Proof.
  intros Hp. run. destruct (bool_decide (is_Some (w_fs w !! p))); run;
    [reflexivity|].
  rewrite encode_and_save_run by exact Hp.
  destruct (encoder_outcome E args comments); run; now rewrite <- ?app_assoc.
Qed.

(** When a cache file is missing, [encode_or_load_data] is [encode_set] on
    the training set followed by [encode_set] on the test set. *)
Lemma encode_or_load_data_encoding_run (args : Args) (dl : DataLoader) (w : World) :
  let ptr := os_path_join (workdir args)
               (tinp_file_format "training" (encoder_type args)) in
  let pte := os_path_join (workdir args)
               (tinp_file_format "test" (encoder_type args)) in
  w_fs w !! ptr = None \/ w_fs w !! pte = None ->
  encode_or_load_data E args dl w
  = let (tr, w1) := encode_set E args ptr (dl_get dl "BODY" "train") "train" w in
    let (te, w2) := encode_set E args pte (dl_get dl "BODY" "test") "test" w1 in
    (Return ((tr, np_array (dl_get dl "REMOVED" "train")),
             (te, np_array (dl_get dl "REMOVED" "test"))), w2).
Proof.
  intros ptr pte Hmiss. unfold encode_or_load_data.
  fold ptr. fold pte.
  assert (Hntr : ends_with ".npy" ptr = true)
    by (apply os_path_join_ends_with;
        exact (tinp_file_ends_with_npy "training" (encoder_type args))).
  assert (Hnte : ends_with ".npy" pte = true)
    by (apply os_path_join_ends_with;
        exact (tinp_file_ends_with_npy "test" (encoder_type args))).
  clearbody ptr pte.
  assert (Hcond :
    (let* ex := os_path_exists ptr in
     if negb ex then ret true
     else let* ex0 := os_path_exists pte in ret (negb ex0)) w = (Return true, w)).
  { run. destruct Hmiss as [H|H].
    - rewrite (bool_decide_is_Some_None _ H). now run.
    - destruct (bool_decide (is_Some (w_fs w !! ptr))); run; [|reflexivity].
      rewrite (bool_decide_is_Some_None _ H). now run. }
  rewrite run_bind, Hcond. cbv beta iota.
  rewrite run_bind. rewrite (run_bind (bind _ _)).
  rewrite (encode_set_run args ptr) by exact Hntr.
  unfold encode_set. simpl String.append.
  destruct (bool_decide (is_Some (w_fs w !! ptr))).
  - cbv beta iota. rewrite run_bind.
    rewrite (encode_set_run args pte) by exact Hnte.
    destruct (bool_decide (is_Some (w_fs w !! pte)));
      [|destruct (encoder_outcome E args (dl_get dl "BODY" "test"))];
      now run.
  - destruct (encoder_outcome E args (dl_get dl "BODY" "train"));
      cbv beta iota; rewrite run_bind;
      rewrite (encode_set_run args pte) by exact Hnte;
      cbn [w_fs w_log w_trace];
      (match goal with
       | |- context [bool_decide (is_Some (?m !! pte))] =>
           destruct (bool_decide (is_Some (m !! pte)))
       end);
      [|destruct (encoder_outcome E args (dl_get dl "BODY" "test"))| |
        destruct (encoder_outcome E args (dl_get dl "BODY" "test"))];
      now run.
Qed.

(** With both files holding matrices, the run is the two loads. *)
Lemma encode_or_load_data_cached_run (E0 : Externals) (args : Args) (dl : DataLoader)
    (w : World) (a b : ndarray) :
  let ptr := os_path_join (workdir args)
               (tinp_file_format "training" (encoder_type args)) in
  let pte := os_path_join (workdir args)
               (tinp_file_format "test" (encoder_type args)) in
  w_fs w !! ptr = Some (FNpy a) -> w_fs w !! pte = Some (FNpy b) ->
  encode_or_load_data E0 args dl w
  = (Return ((PyArray a, np_array (dl_get dl "REMOVED" "train")),
             (PyArray b, np_array (dl_get dl "REMOVED" "test"))),
     mk_world (w_fs w)
       (w_log w
        ++ [mk_log INFO "Loading train & test inputs from file" [];
            mk_log INFO "Loading encoded training matrix from: {}" [LStr ptr];
            mk_log INFO "Loading encoded test matrix from: {}" [LStr pte]])
       (w_trace w ++ [EvNpLoad ptr; EvNpLoad pte])).
Proof.
  intros ptr pte Ha Hb. unfold encode_or_load_data. fold ptr. fold pte.
  clearbody ptr pte.
  assert (Btr : bool_decide (is_Some (w_fs w !! ptr)) = true)
    by (apply bool_decide_eq_true; now rewrite Ha).
  assert (Bte : bool_decide (is_Some (w_fs w !! pte)) = true)
    by (apply bool_decide_eq_true; now rewrite Hb).
  run. rewrite Btr. run. rewrite Bte. run.
  rewrite (load_encoded_inputs_npy ptr pte a b) by assumption. run.
  now rewrite <- !app_assoc.
Qed.

Lemma bool_decide_is_Some_false {A} (o : option A) :
  bool_decide (is_Some o) = false -> o = None.
Proof.
  intros H. apply bool_decide_eq_false in H.
  destruct o; [destruct H; eauto | reflexivity].
Qed.

(** Brings the hypotheses on the cache paths to the form of the lemmas. *)
Ltac fold_cache_paths args ptr pte :=
  change ptr with (os_path_join (workdir args)
                     (tinp_file_format "training" (encoder_type args))) in *;
  change pte with (os_path_join (workdir args)
                     (tinp_file_format "test" (encoder_type args))) in *;
  clear ptr pte;
  set (ptr := os_path_join (workdir args)
                (tinp_file_format "training" (encoder_type args))) in *;
  set (pte := os_path_join (workdir args)
                (tinp_file_format "test" (encoder_type args))) in *.

(** X1. On a work directory with neither cache file, when both encoder
    calls succeed, [encode_or_load_data] encodes the training comments,
    saves the matrix, encodes the test comments, saves that matrix, in this
    order, and returns the two matrices; no [np.load] is made. *)
Theorem fresh_run_encodes_and_saves_both (args : Args) (dl : DataLoader)
    (w : World) (m_tr m_te : ndarray) :
  let ptr := os_path_join (workdir args)
               ("training_" +:+ encoder_type args +:+ "-comments.npy") in
  let pte := os_path_join (workdir args)
               ("test_" +:+ encoder_type args +:+ "-comments.npy") in
  w_fs w !! ptr = None -> w_fs w !! pte = None ->
  encoder_outcome E args (dl_get dl "BODY" "train") = Return m_tr ->
  encoder_outcome E args (dl_get dl "BODY" "test") = Return m_te ->
  encode_or_load_data E args dl w
  = (Return ((PyArray m_tr, np_array (dl_get dl "REMOVED" "train")),
             (PyArray m_te, np_array (dl_get dl "REMOVED" "test"))),
     mk_world (<[pte := FNpy m_te]> (<[ptr := FNpy m_tr]> (w_fs w)))
       (w_log w
        ++ [mk_log INFO "Encoding train inputs" [];
            mk_log INFO "Comments encoded: {}" [LShape (nd_shape m_tr)];
            mk_log INFO "Encoding test inputs" [];
            mk_log INFO "Comments encoded: {}" [LShape (nd_shape m_te)]])
       (w_trace w
        ++ encoder_events args (dl_get dl "BODY" "train") ++ [EvNpSave ptr m_tr]
        ++ encoder_events args (dl_get dl "BODY" "test") ++ [EvNpSave pte m_te])).
Proof.
  intros ptr pte Htr Hte Otr Ote. fold_cache_paths args ptr pte.
  rewrite encode_or_load_data_encoding_run by (left; exact Htr).
  fold ptr. fold pte.
  assert (Hne : ptr <> pte) by apply train_test_paths_differ.
  clearbody ptr pte. unfold encode_set.
  rewrite (bool_decide_is_Some_None _ Htr), Otr. cbn [w_fs w_log w_trace].
  rewrite lookup_insert_ne by exact Hne.
  rewrite (bool_decide_is_Some_None _ Hte), Ote. cbn [w_fs w_log w_trace].
  simpl String.append. now rewrite <- !app_assoc.
Qed.

(** X2. The cache is a round trip.  After a run on a work directory with
    neither cache file in which both encoder calls succeeded, a second run
    with the same [args], whatever the encoders would now do, makes two
    [np.load] calls and nothing else, and returns the matrices of the first
    run. *)
Theorem second_run_loads_what_the_first_saved (E' : Externals) (args : Args)
    (dl : DataLoader) (w : World) (m_tr m_te : ndarray) :
  let ptr := os_path_join (workdir args)
               ("training_" +:+ encoder_type args +:+ "-comments.npy") in
  let pte := os_path_join (workdir args)
               ("test_" +:+ encoder_type args +:+ "-comments.npy") in
  w_fs w !! ptr = None -> w_fs w !! pte = None ->
  encoder_outcome E args (dl_get dl "BODY" "train") = Return m_tr ->
  encoder_outcome E args (dl_get dl "BODY" "test") = Return m_te ->
  exists r w1 w2,
    encode_or_load_data E args dl w = (r, w1)
    /\ encode_or_load_data E' args dl w1 = (r, w2)
    /\ r = Return ((PyArray m_tr, np_array (dl_get dl "REMOVED" "train")),
                   (PyArray m_te, np_array (dl_get dl "REMOVED" "test")))
    /\ w_fs w2 = w_fs w1
    /\ w_trace w2 = w_trace w1 ++ [EvNpLoad ptr; EvNpLoad pte].
Proof.
  intros ptr pte Htr Hte Otr Ote. fold_cache_paths args ptr pte.
  rewrite encode_or_load_data_encoding_run by (left; exact Htr).
  fold ptr. fold pte.
  assert (Hne : ptr <> pte) by apply train_test_paths_differ.
  unfold encode_set.
  rewrite (bool_decide_is_Some_None _ Htr), Otr. cbn [w_fs w_log w_trace].
  rewrite lookup_insert_ne by exact Hne.
  rewrite (bool_decide_is_Some_None _ Hte), Ote. cbn [w_fs w_log w_trace].
  do 3 eexists. split; [reflexivity|].
  rewrite (encode_or_load_data_cached_run E' args dl _ m_tr m_te).
  - repeat split; reflexivity.
  - fold ptr pte. cbn [w_fs].
    rewrite lookup_insert_ne by congruence. apply lookup_insert_eq.
  - fold pte. cbn [w_fs]. apply lookup_insert_eq.
Qed.

(** X3. A half-filled cache is completed by the first run and only used by
    the second.  With the training matrix [a] cached and the test file
    missing, a run in which the test comments are encoded returns [[]] for
    the training inputs; the next run with the same [args] returns [a]. *)
Theorem half_cache_is_used_from_the_second_run_on (E' : Externals) (args : Args)
    (dl : DataLoader) (w : World) (a m_te : ndarray) :
  let ptr := os_path_join (workdir args)
               ("training_" +:+ encoder_type args +:+ "-comments.npy") in
  let pte := os_path_join (workdir args)
               ("test_" +:+ encoder_type args +:+ "-comments.npy") in
  let ytr := np_array (dl_get dl "REMOVED" "train") in
  let yte := np_array (dl_get dl "REMOVED" "test") in
  w_fs w !! ptr = Some (FNpy a) -> w_fs w !! pte = None ->
  encoder_outcome E args (dl_get dl "BODY" "test") = Return m_te ->
  exists w1 w2,
    encode_or_load_data E args dl w
    = (Return ((PyEmptyList, ytr), (PyArray m_te, yte)), w1)
    /\ encode_or_load_data E' args dl w1
       = (Return ((PyArray a, ytr), (PyArray m_te, yte)), w2).
Proof.
  intros ptr pte ytr yte Htr Hte Ote. fold_cache_paths args ptr pte.
  rewrite encode_or_load_data_encoding_run by (right; exact Hte).
  fold ptr. fold pte.
  assert (Hne : ptr <> pte) by apply train_test_paths_differ.
  unfold encode_set.
  assert (Btr : bool_decide (is_Some (w_fs w !! ptr)) = true)
    by (apply bool_decide_eq_true; now rewrite Htr).
  rewrite Btr, (bool_decide_is_Some_None _ Hte), Ote.
  do 2 eexists. split; [reflexivity|].
  rewrite (encode_or_load_data_cached_run E' args dl _ a m_te).
  - reflexivity.
  - fold ptr pte. cbn [w_fs]. now rewrite lookup_insert_ne by congruence.
  - fold pte. cbn [w_fs]. apply lookup_insert_eq.
Qed.

(** X4. A cache file that exists but cannot be loaded is not re-encoded.
    When both cache files exist and one of them is not a matrix file,
    [encode_or_load_data] raises the [TypeError] of unpacking the [None]
    that [load_encoded_inputs] returned; no encoder is called and no file
    is written. *)
Theorem unreadable_cache_raises_type_error (args : Args) (dl : DataLoader)
    (w : World) :
  let ptr := os_path_join (workdir args)
               ("training_" +:+ encoder_type args +:+ "-comments.npy") in
  let pte := os_path_join (workdir args)
               ("test_" +:+ encoder_type args +:+ "-comments.npy") in
  is_Some (w_fs w !! ptr) -> is_Some (w_fs w !! pte) ->
  (forall a, w_fs w !! ptr <> Some (FNpy a))
  \/ (forall b, w_fs w !! pte <> Some (FNpy b)) ->
  exists w',
    encode_or_load_data E args dl w
    = (Raise (Exn "TypeError" "cannot unpack non-iterable NoneType object"), w')
    /\ w_fs w' = w_fs w
    /\ (w_trace w' = w_trace w ++ [EvNpLoad ptr]
        \/ w_trace w' = w_trace w ++ [EvNpLoad ptr; EvNpLoad pte]).
Proof.
  intros ptr pte Htr Hte Hbad. fold_cache_paths args ptr pte.
  unfold encode_or_load_data. fold ptr. fold pte. clearbody ptr pte.
  pose proof (bool_decide_eq_true_2 _ Htr) as Btr.
  pose proof (bool_decide_eq_true_2 _ Hte) as Bte.
  run. rewrite Btr. run. rewrite Bte. run.
  set (w1 := mk_world _ _ _).
  destruct (load_encoded_inputs_total ptr pte w1)
    as (v & w' & Hrun & Hfs & Htrace & _ & Hv).
  rewrite Hrun. run. destruct v as [[a b]|]; run.
  - destruct (Hv a b eq_refl) as [Ha Hb]. simpl in Ha, Hb.
    destruct Hbad as [Hbad|Hbad]; [now destruct (Hbad a) | now destruct (Hbad b)].
  - eexists. split; [reflexivity|]. split; [exact Hfs|].
    simpl in Htrace. tauto.
Qed.

(** X5. An unknown encoder name is swallowed.  For an [encoder_type] other
    than 'LASER' and 'LSI', when a cache file is missing,
    [encode_or_load_data] returns normally with [[]] for both sets; it
    makes no library call and writes no file. *)
Theorem unknown_encoder_yields_empty_inputs (args : Args) (dl : DataLoader)
    (w : World) :
  let ptr := os_path_join (workdir args)
               ("training_" +:+ encoder_type args +:+ "-comments.npy") in
  let pte := os_path_join (workdir args)
               ("test_" +:+ encoder_type args +:+ "-comments.npy") in
  encoder_type args <> "LASER" -> encoder_type args <> "LSI" ->
  w_fs w !! ptr = None \/ w_fs w !! pte = None ->
  exists w',
    encode_or_load_data E args dl w
    = (Return ((PyEmptyList, np_array (dl_get dl "REMOVED" "train")),
               (PyEmptyList, np_array (dl_get dl "REMOVED" "test"))), w')
    /\ w_fs w' = w_fs w
    /\ w_trace w' = w_trace w.
Proof.
  intros ptr pte H1 H2 Hmiss. fold_cache_paths args ptr pte.
  rewrite encode_or_load_data_encoding_run by exact Hmiss.
  fold ptr. fold pte. clearbody ptr pte.
  apply String.eqb_neq in H1. apply String.eqb_neq in H2.
  unfold encode_set, encoder_outcome, encoder_events. rewrite H1, H2.
  destruct (bool_decide (is_Some (w_fs w !! ptr))); cbn [w_fs w_log w_trace];
    destruct (bool_decide (is_Some (w_fs w !! pte))); cbn [w_fs w_log w_trace];
    eexists; (split; [reflexivity|]); simpl; now rewrite ?app_nil_r.
Qed.

(** X6. [encode_or_load_data] never overwrites or removes a file: every
    file present before a run is present and unchanged after it, whatever
    the outcome, and the only paths a run may add are the two cache
    paths. *)
Theorem encode_or_load_data_keeps_existing_files (args : Args) (dl : DataLoader)
    (w : World) :
  let ptr := os_path_join (workdir args)
               ("training_" +:+ encoder_type args +:+ "-comments.npy") in
  let pte := os_path_join (workdir args)
               ("test_" +:+ encoder_type args +:+ "-comments.npy") in
  let w' := (encode_or_load_data E args dl w).2 in
  w_fs w ⊆ w_fs w'
  /\ forall p, p <> ptr -> p <> pte -> w_fs w' !! p = w_fs w !! p.
Proof.
  intros ptr pte. fold_cache_paths args ptr pte.
  destruct (w_fs w !! ptr) as [ftr|] eqn:Htr;
    [destruct (w_fs w !! pte) as [fte|] eqn:Hte|].
  - (* both present: the loading branch *)
    unfold encode_or_load_data. fold ptr. fold pte. clearbody ptr pte.
    assert (Btr : bool_decide (is_Some (w_fs w !! ptr)) = true)
      by (apply bool_decide_eq_true; now rewrite Htr).
    assert (Bte : bool_decide (is_Some (w_fs w !! pte)) = true)
      by (apply bool_decide_eq_true; now rewrite Hte).
    run. rewrite Btr. run. rewrite Bte. run.
    set (w1 := mk_world _ _ _).
    destruct (load_encoded_inputs_total ptr pte w1)
      as (v & w' & Hrun & Hfs & _).
    rewrite Hrun. run. destruct v as [[a b]|]; run; simpl; rewrite Hfs;
      split; reflexivity || (intros; reflexivity).
  - rewrite encode_or_load_data_encoding_run by (right; exact Hte).
    fold ptr. fold pte. clearbody ptr pte. unfold encode_set.
    assert (Btr : bool_decide (is_Some (w_fs w !! ptr)) = true)
      by (apply bool_decide_eq_true; now rewrite Htr).
    rewrite Btr, (bool_decide_is_Some_None _ Hte).
    destruct (encoder_outcome E args (dl_get dl "BODY" "test")); simpl.
    + split; [now apply insert_subseteq|].
      intros p _ Hp. now rewrite lookup_insert_ne by congruence.
    + split; [reflexivity | intros; reflexivity].
  - rewrite encode_or_load_data_encoding_run by (left; exact Htr).
    fold ptr. fold pte.
    assert (Hne : ptr <> pte) by apply train_test_paths_differ.
    clearbody ptr pte. unfold encode_set.
    rewrite (bool_decide_is_Some_None _ Htr).
    destruct (encoder_outcome E args (dl_get dl "BODY" "train"));
      cbn [w_fs w_log w_trace]; rewrite ?lookup_insert_ne by exact Hne;
      destruct (bool_decide (is_Some (w_fs w !! pte))) eqn:Bte;
      try destruct (encoder_outcome E args (dl_get dl "BODY" "test"));
      simpl; try apply bool_decide_is_Some_false in Bte;
      (split; [|intros p Hp1 Hp2; now rewrite ?lookup_insert_ne by congruence]);
      first [ reflexivity
            | apply insert_subseteq; assumption
            | etrans; [apply (insert_subseteq _ ptr); exact Htr|];
              apply insert_subseteq;
              rewrite lookup_insert_ne by congruence; assumption ].
Qed.


(** ** Programs that write no file *)

Lemma keeps_fs_bind {A B} (c : M A) (k : A -> M B) :
  keeps_fs c -> (forall a, keeps_fs (k a)) -> keeps_fs (bind c k).
Proof.
  intros Hc Hk w. rewrite run_bind. specialize (Hc w).
  destruct (c w) as [[a|e] w1]; simpl in Hc; [|exact Hc].
  now rewrite Hk.
Qed.

Lemma keeps_fs_for_each {A S} (l : list A) (body : A -> S -> M S) (s : S) :
  (forall x s', keeps_fs (body x s')) -> keeps_fs (for_each l body s).
Proof.
  intros Hb. revert s. induction l as [|x l IH]; intros s; simpl.
  - intros w. reflexivity.
  - apply keeps_fs_bind; [apply Hb | apply IH].
Qed.

Lemma dict_get_world {V} (d : dict V) (k : dkey) (w : World) :
  (dict_get d k w).2 = w.
Proof.
  induction d as [|[k' x] d IH]; simpl; [reflexivity|].
  now destruct (decide (k' = k)).
Qed.

Lemma dict_get_set {V} (d : dict V) (k : dkey) (v : V) (w : World) :
  dict_get (dict_set d k v) k w = (Return v, w).
Proof.
  induction d as [|[k' x] d IH]; simpl.
  - now rewrite decide_True.
  - destruct (decide (k' = k)) as [->|Hk]; simpl.
    + now rewrite decide_True.
    + now rewrite decide_False.
Qed.

Create HintDb files discriminated.

#[local] Hint Extern 1 (keeps_fs (ret _)) => intros ?; reflexivity : files.
#[local] Hint Extern 1 (keeps_fs (raise _)) => intros ?; reflexivity : files.
#[local] Hint Extern 1 (keeps_fs (logger _ _ _)) => intros ?; reflexivity : files.
#[local] Hint Extern 1 (keeps_fs (emit _)) => intros ?; reflexivity : files.
#[local] Hint Extern 1 (keeps_fs (lift_result _)) => intros ?; reflexivity : files.
#[local] Hint Extern 1 (keeps_fs get_fs) => intros ?; reflexivity : files.
#[local] Hint Extern 1 (keeps_fs (lift_status ?r)) =>
  intros ?; destruct r; reflexivity : files.
#[local] Hint Extern 1 (keeps_fs (dict_get _ _)) =>
  intros ?; now rewrite dict_get_world : files.
#[local] Hint Extern 2 (keeps_fs (bind _ _)) =>
  apply keeps_fs_bind; [|intros] : files.
#[local] Hint Extern 2 (keeps_fs (for_each _ _ _)) =>
  apply keeps_fs_for_each; intros : files.
#[local] Hint Extern 3 (keeps_fs (let (_, _) := ?p in _)) => destruct p : files.

Lemma roc_curve_keeps_fs (y_test y_score : ndarray) (n_classes : nat) :
  keeps_fs (roc_curve E y_test y_score n_classes).
Proof.
  unfold roc_curve, shape0, numpy.
  apply keeps_fs_bind; [destruct (nd_shape y_test); auto with files | intros n].
  do 4 (apply keeps_fs_bind; [auto 20 with files | intros ?]).
  apply keeps_fs_bind; [|intros [[fpr tpr] roc_auc]; auto 30 with files].
  apply keeps_fs_for_each. intros i [[fpr tpr] roc_auc]. auto 30 with files.
Qed.

(** ** [roc_curve], call by call *)

Lemma run_numpy {A} (op : string) (r : result A) (w : World) :
  numpy op r w = (r, mk_world (w_fs w) (w_log w) (w_trace w ++ [EvNumpy op])).
Proof. unfold numpy. run. now destruct r. Qed.

#[local] Hint Rewrite @run_numpy : run.

(** The loop over the classes, when it goes through. *)
Lemma roc_classes_success (y_test_ y_score : ndarray) (n k : nat)
    (s s' : dict ndarray * dict ndarray * dict Q) (w w' : World) :
  for_each (seq k n)
    (fun i '(fpr, tpr, roc_auc) =>
       let* yt_i := numpy "column" (np_column E y_test_ i) in
       let* ys_i := numpy "column" (np_column E y_score i) in
       let* (f, t) :=
         emit (EvRocCurve (KInt i));; lift_result (sk_roc_curve E yt_i ys_i) in
       let fpr := dict_set fpr (KInt i) f in
       let tpr := dict_set tpr (KInt i) t in
       let* f_i := dict_get fpr (KInt i) in
       let* t_i := dict_get tpr (KInt i) in
       let* a := emit (EvAuc (KInt i));; lift_result (auc E f_i t_i) in
       ret (fpr, tpr, dict_set roc_auc (KInt i) a))
    s w = (Return s', w') ->
  w' = mk_world (w_fs w) (w_log w)
         (w_trace w ++ flat_map roc_class_events (seq k n)).
Proof.
  revert k s w. induction n as [|n IH]; intros k s w; simpl.
  - run. intros [= _ <-]. destruct w. simpl. now rewrite app_nil_r.
  - destruct s as [[fpr tpr] roc_auc]. run.
    destruct (np_column E y_test_ k) as [yt|e]; run; [|discriminate].
    destruct (np_column E y_score k) as [ys|e]; run; [|discriminate].
    destruct (sk_roc_curve E yt ys) as [[f t]|e]; run; [|discriminate].
    rewrite dict_get_set. run. rewrite dict_get_set. run.
    destruct (auc E f t) as [a|e]; run; [|discriminate].
    intros H. apply IH in H. rewrite H. simpl.
    now rewrite <- !app_assoc.
Qed.

(** X8. What [roc_curve] calls when it goes through.  A run of [roc_curve]
    that returns has made, in this order: the masked store and the row
    maximum of numpy, [roc_auc_score]; for each class [0 .. n_classes-1]
    two column slices, [roc_curve] and [auc] of scikit-learn; the
    micro-average [roc_curve] and [auc]; and one [plot_roc] at the end.  It
    has logged the ROC AUC score and written no file. *)
Theorem roc_curve_calls (y_test y_score : ndarray) (n_classes : nat) (w w' : World) :
  roc_curve E y_test y_score n_classes w = (Return tt, w') ->
  exists roc_score,
    w' = mk_world (w_fs w)
           (w_log w ++ [mk_log INFO "ROC AUC score: {}" [LNum roc_score]])
           (w_trace w
            ++ [EvNumpy "setitem"; EvNumpy "max"; EvRocAucScore]
            ++ flat_map roc_class_events (seq 0 n_classes)
            ++ [EvRocCurve (KStr "micro"); EvAuc (KStr "micro"); EvPlotRoc]).
Proof.
  unfold roc_curve, shape0.
  destruct (nd_shape y_test) as [|n rest]; run; [discriminate|].
  destruct (np_setitem E _ y_test (SNum 1)) as [y_test_|e]; run; [|discriminate].
  destruct (np_max E y_score 1) as [y_max|e]; run; [|discriminate].
  destruct (roc_auc_score E y_test y_max) as [roc_score|e]; run; [|discriminate].
  match goal with
  | |- context [for_each ?l ?b ?s ?w0] =>
      destruct (for_each l b s w0) as [[[[fpr tpr] roc_auc]|e] w1] eqn:Hloop
  end; run; [|discriminate].
  apply roc_classes_success in Hloop. subst w1. run.
  destruct (sk_roc_curve E (np_ravel y_test_) (np_ravel y_score)) as [[f t]|e];
    run; [|discriminate].
  rewrite dict_get_set. run. rewrite dict_get_set. run.
  destruct (auc E f t) as [a|e]; run; [|discriminate].
  destruct (plot_roc E _ _ _ 2) as [e|]; simpl; [discriminate|].
  intros H. injection H as <-. exists roc_score.
  now rewrite <- !app_assoc.
Qed.

(** ** Training on what [encode_or_load_data] returns *)

(** X9. Empty inputs cannot be trained on.  When the training inputs or the
    test inputs are the list [[]], [make_classifier_and_predict] raises
    [AttributeError] at the first debug record, for every [clf_name]: no
    classifier is fitted and no file is written. *)
Theorem empty_inputs_raise_attribute_error (args : Args)
    (train_set test_set : pyinputs * ndarray) (target_names : list string)
    (random_seed : Z) (clf_name : string) (w : World) :
  train_set.1 = PyEmptyList \/ test_set.1 = PyEmptyList ->
  exists w',
    make_classifier_and_predict E args train_set test_set target_names
      random_seed clf_name w
    = (Raise (Exn "AttributeError" "'list' object has no attribute 'shape'"), w')
    /\ w_fs w' = w_fs w
    /\ w_trace w' = w_trace w.
Proof.
  destruct train_set as [[|x_train] y_train], test_set as [[|x_test] y_test];
    simpl; intros [H|H]; try discriminate H;
    unfold make_classifier_and_predict, py_shape; run;
    eexists; repeat split.
Qed.

(** X10. The sets returned from a half-filled cache cannot be trained on.
    When exactly one cache file exists, [encode_or_load_data] returns
    normally and [make_classifier_and_predict] raises [AttributeError] on
    the two sets it returned, whatever the encoder did and whatever
    classifier is asked for. *)
Theorem half_cache_result_cannot_be_trained_on (args : Args) (dl : DataLoader)
    (w : World) :
  let ptr := os_path_join (workdir args)
               ("training_" +:+ encoder_type args +:+ "-comments.npy") in
  let pte := os_path_join (workdir args)
               ("test_" +:+ encoder_type args +:+ "-comments.npy") in
  (is_Some (w_fs w !! ptr) /\ w_fs w !! pte = None)
  \/ (w_fs w !! ptr = None /\ is_Some (w_fs w !! pte)) ->
  exists train_set test_set w1,
    encode_or_load_data E args dl w = (Return (train_set, test_set), w1)
    /\ forall E' target_names random_seed clf_name w2,
         (make_classifier_and_predict E' args train_set test_set target_names
            random_seed clf_name w2).1
         = Raise (Exn "AttributeError" "'list' object has no attribute 'shape'").
Proof.
  intros ptr pte Hone. fold_cache_paths args ptr pte.
  rewrite encode_or_load_data_encoding_run by tauto.
  fold ptr. fold pte.
  assert (Hne : ptr <> pte) by apply train_test_paths_differ.
  clearbody ptr pte. unfold encode_set.
  destruct Hone as [[Htr Hte]|[Htr Hte]].
  - rewrite (bool_decide_eq_true_2 _ Htr).
    destruct (bool_decide (is_Some (w_fs w !! pte)));
      [|destruct (encoder_outcome E args (dl_get dl "BODY" "test"))];
      do 3 eexists; (split; [reflexivity|]); intros;
      unfold make_classifier_and_predict, py_shape; now run.
  - rewrite (bool_decide_is_Some_None _ Htr).
    destruct (encoder_outcome E args (dl_get dl "BODY" "train"));
      cbn [w_fs w_log w_trace]; rewrite ?lookup_insert_ne by exact Hne;
      rewrite (bool_decide_eq_true_2 _ Hte);
      do 3 eexists; (split; [reflexivity|]); intros;
      unfold make_classifier_and_predict, py_shape; now run.
Qed.

(** ** [save_predictions], case by case *)

Lemma index_of_None (c : string) (cols : list string) :
  index_of c cols = None <-> ~ In c cols.
Proof.
  induction cols as [|c' cols IH]; simpl; [tauto|].
  destruct (String.eqb c c') eqn:Hc.
  - apply String.eqb_eq in Hc. subst.
    split; [discriminate | intros H; destruct H; now left].
  - apply String.eqb_neq in Hc.
    destruct (index_of c cols) eqn:Hi; simpl.
    + split; [discriminate|]. intros H. exfalso.
      destruct (in_dec string_dec c cols) as [Hin|Hnin];
        [apply H; now right | apply IH in Hnin; discriminate].
    + split; [|reflexivity].
      intros _ [H|H]; [congruence | exact (proj1 IH eq_refl H)].
Qed.

Lemma chunks_length {A} (k n : nat) (l : list A) : length (chunks k n l) = n.
Proof. revert l. induction n as [|n IH]; intros l; simpl; [|rewrite IH]; reflexivity. Qed.

(** The loop of [save_predictions] over [enumerate(y_pred)]: it goes
    through when every index has a row, and stops with [IndexError] at the
    first index that has none; the frame is the same after every round. *)
Lemma prediction_loop_run {A} (items : list A) (store : A -> scalar)
    (pred : DataFrame) (w : World) :
  for_each (enumerate items)
    (fun '(i, y_lbl) pred0 =>
       let* row := df_iloc pred0 i in
       let _row := series_setitem row "Prediction" (store y_lbl) in
       ret pred0)
    pred w
  = if decide (length items <= length (df_rows pred))%nat
    then (Return pred, w)
    else (Raise (Exn "IndexError" "single positional indexer is out-of-bounds"), w).
Proof.
  unfold enumerate.
  assert (G : forall k,
    for_each (combine (seq k (length items)) items)
      (fun '(i, y_lbl) pred0 =>
         let* row := df_iloc pred0 i in
         let _row := series_setitem row "Prediction" (store y_lbl) in
         ret pred0)
      pred w
    = if decide (items = [] \/ k + length items <= length (df_rows pred))%nat
      then (Return pred, w)
      else (Raise (Exn "IndexError" "single positional indexer is out-of-bounds"), w)).
  { induction items as [|x items IH]; intros k; cbn [length seq combine for_each].
    - rewrite decide_True by now left. reflexivity.
    - unfold df_iloc. run.
      destruct (df_rows pred !! k) as [r|] eqn:Hk; run.
      + apply lookup_lt_Some in Hk. rewrite IH.
        destruct (decide (items = [] \/ S k + length items <= length (df_rows pred))%nat)
          as [Hd|Hd].
        * rewrite decide_True; [reflexivity|]. right.
          destruct Hd as [->|Hd]; cbn [length]; lia.
        * rewrite decide_False; [reflexivity|]. intros [H|H]; [discriminate|].
          apply Hd. right. lia.
      + apply lookup_ge_None in Hk. rewrite decide_False; [reflexivity|].
        intros [H|H]; [discriminate | lia]. }
  rewrite G.
  destruct (decide (length items <= length (df_rows pred))%nat) as [Hd|Hd].
  - rewrite decide_True by (right; lia). reflexivity.
  - rewrite decide_False; [reflexivity|]. intros [->|H]; cbn [length] in *; lia.
Qed.

(** The whole of [save_predictions], by cases. *)
Lemma save_predictions_run (args : Args) (y_pred : ndarray) (w : World) :
  let w1 := mk_world (w_fs w) (w_log w)
              (w_trace w ++ [EvReadCsv (test_file args)]) in
  save_predictions E args y_pred w
  = match read_csv E (test_file args) (w_fs w) with
    | Raise e => (Raise e, w1)
    | Return df =>
        match mapM (fun c => index_of c (df_columns df)) ["BODY"; "REMOVED"] with
        | None => (Raise (Exn "KeyError" "not in index"), w1)
        | Some idxs =>
            match nd_shape y_pred with
            | [] => (Raise (Exn "TypeError" "iteration over a 0-d array"), w1)
            | n :: _ =>
                if decide (n <= length (df_rows df))%nat then
                  (Return tt,
                   mk_world
                     (<[predictions_file args :=
                          FDelim TAB ["ID"; "BODY"; "REMOVED"]
                            (zip_with cons (df_index df)
                               (map (fun r => map (fun j => nth j r (SStr "")) idxs)
                                    (df_rows df)))]> (w_fs w))
                     (w_log w)
                     (w_trace w ++ [EvReadCsv (test_file args);
                                    EvToCsv (predictions_file args)]))
                else
                  (Raise (Exn "IndexError"
                              "single positional indexer is out-of-bounds"), w1)
            end
        end
    end.
Proof.
  intros w1. unfold save_predictions, df_getitem, nd_iter, df_to_csv, copy_deepcopy.
  run. fold w1.
  destruct (read_csv E (test_file args) (w_fs w)) as [df|e]; run; [|reflexivity].
  destruct (mapM _ (_ : list string)) as [idxs|]; run; [|reflexivity].
  destruct (nd_shape y_pred) as [|n rest]; run; [reflexivity|].
  rewrite (prediction_loop_run _ item_scalar).
  rewrite length_map, chunks_length. cbn [df_rows]. rewrite length_map.
  destruct (decide (n <= length (df_rows df))%nat); run; [|reflexivity].
  unfold w1. cbn [w_fs w_log w_trace]. now rewrite <- app_assoc.
Qed.

Lemma gold_columns_found (cols : list string) (i j : nat) :
  index_of "BODY" cols = Some i -> index_of "REMOVED" cols = Some j ->
  mapM (fun c => index_of c cols) ["BODY"; "REMOVED"] = Some [i; j].
Proof. intros Hi Hj. simpl. rewrite Hi. simpl. rewrite Hj. reflexivity. Qed.

Lemma gold_columns_missing (cols : list string) :
  ~ In "BODY" cols \/ ~ In "REMOVED" cols ->
  mapM (fun c => index_of c cols) ["BODY"; "REMOVED"] = None.
Proof.
  intros [H|H]; apply index_of_None in H; simpl; rewrite H;
    [reflexivity | now destruct (index_of "BODY" cols)].
Qed.

Lemma written_rows (index : list scalar) (rows : list (list scalar)) (i j : nat) :
  zip_with cons index
    (map (fun r => map (fun k => nth k r (SStr "")) [i; j]) rows)
  = zip_with (fun idx r => [idx; nth i r (SStr ""); nth j r (SStr "")]) index rows.
Proof.
  revert index. induction rows as [|r rows IH]; intros [|idx index]; simpl;
    try reflexivity.
  now rewrite IH.
Qed.

(** X11. More predictions than gold rows.  When [y_pred] has more entries
    than the gold file has rows, [save_predictions] raises the [IndexError]
    of [iloc] and writes nothing: the predictions file is not created. *)
Theorem save_predictions_too_many_predictions (args : Args) (y_pred : ndarray)
    (w : World) (df : DataFrame) (n : nat) (rest : list nat) :
  read_csv E (test_file args) (w_fs w) = Return df ->
  In "BODY" (df_columns df) -> In "REMOVED" (df_columns df) ->
  nd_shape y_pred = n :: rest ->
  (length (df_rows df) < n)%nat ->
  save_predictions E args y_pred w
  = (Raise (Exn "IndexError" "single positional indexer is out-of-bounds"),
     mk_world (w_fs w) (w_log w) (w_trace w ++ [EvReadCsv (test_file args)])).
Proof.
  intros Hread Hb Hr Hshape Hlen. rewrite save_predictions_run, Hread, Hshape.
  destruct (index_of "BODY" (df_columns df)) as [i|] eqn:Hi;
    [|now apply index_of_None in Hi].
  destruct (index_of "REMOVED" (df_columns df)) as [j|] eqn:Hj;
    [|now apply index_of_None in Hj].
  rewrite (gold_columns_found _ i j) by assumption.
  rewrite decide_False by lia. reflexivity.
Qed.

(** X12. A gold file without a [BODY] or a [REMOVED] column.
    [save_predictions] raises [KeyError] as soon as the file is read; the
    predictions are not looked at and nothing is written. *)
Theorem save_predictions_missing_column (args : Args) (y_pred : ndarray)
    (w : World) (df : DataFrame) :
  read_csv E (test_file args) (w_fs w) = Return df ->
  ~ In "BODY" (df_columns df) \/ ~ In "REMOVED" (df_columns df) ->
  save_predictions E args y_pred w
  = (Raise (Exn "KeyError" "not in index"),
     mk_world (w_fs w) (w_log w) (w_trace w ++ [EvReadCsv (test_file args)])).
Proof.
  intros Hread Hmiss.
  rewrite save_predictions_run, Hread, gold_columns_missing by exact Hmiss.
  reflexivity.
Qed.

(** X13. Fewer predictions than gold rows are accepted.  When the gold file
    has [BODY] as its [i]-th and [REMOVED] as its [j]-th column and
    [y_pred] has at most as many entries as the file has rows, none
    included, [save_predictions] returns normally; the file it writes has
    the row index, [BODY] and [REMOVED] of every gold row, and depends on
    [y_pred] in no way. *)
Theorem save_predictions_writes_every_gold_row (args : Args) (y_pred : ndarray)
    (w : World) (df : DataFrame) (i j n : nat) (rest : list nat) :
  read_csv E (test_file args) (w_fs w) = Return df ->
  index_of "BODY" (df_columns df) = Some i ->
  index_of "REMOVED" (df_columns df) = Some j ->
  nd_shape y_pred = n :: rest ->
  (n <= length (df_rows df))%nat ->
  save_predictions E args y_pred w
  = (Return tt,
     mk_world
       (<[predictions_file args :=
            FDelim TAB ["ID"; "BODY"; "REMOVED"]
              (zip_with (fun idx r => [idx; nth i r (SStr ""); nth j r (SStr "")])
                        (df_index df) (df_rows df))]> (w_fs w))
       (w_log w)
       (w_trace w ++ [EvReadCsv (test_file args);
                      EvToCsv (predictions_file args)])).
Proof.
  intros Hread Hi Hj Hshape Hlen.
  rewrite save_predictions_run, Hread, Hshape.
  rewrite (gold_columns_found _ i j) by assumption.
  rewrite decide_True by exact Hlen.
  now rewrite written_rows.
Qed.

(** ** Files written while training and evaluating *)

Lemma save_predictions_fs (args : Args) (y_pred : ndarray) (w : World) :
  match save_predictions E args y_pred w with
  | (Return _, w') =>
      exists rows,
        w_fs w' = <[predictions_file args :=
                      FDelim TAB ["ID"; "BODY"; "REMOVED"] rows]> (w_fs w)
  | (Raise _, w') => w_fs w' = w_fs w
  end.
Proof.
  rewrite save_predictions_run.
  destruct (read_csv E (test_file args) (w_fs w)) as [df|e]; [|reflexivity].
  destruct (mapM _ (_ : list string)) as [idxs|]; [|reflexivity].
  destruct (nd_shape y_pred) as [|n rest]; [reflexivity|].
  destruct (decide (n <= length (df_rows df))%nat); [|reflexivity].
  eexists. reflexivity.
Qed.

(** Follows [eval_model] call by call, keeping track of the files. *)
Ltac follow_eval_model args clf x_test y_test target_names :=
  unfold eval_model, clf_predict, clf_score, clf_predict_proba, print; run;
  destruct (predict E clf x_test) as [y_pred|e]; run; [|reflexivity];
  destruct (score E clf x_test y_test) as [sc|e]; run; [|reflexivity];
  destruct (classification_report E y_test y_pred target_names) as [report|e];
    run; [|reflexivity];
  destruct (predict_proba E clf x_test) as [y_score|e]; run; [|reflexivity];
  match goal with
  | |- context [roc_curve E y_test y_score 2 ?w0] =>
      let Hroc := fresh "Hroc" in
      let Hsave := fresh "Hsave" in
      let w1 := fresh "w1" in
      let w2 := fresh "w2" in
      pose proof (roc_curve_keeps_fs y_test y_score 2 w0) as Hroc;
      destruct (roc_curve E y_test y_score 2 w0) as [[[]|e] w1];
      run; simpl in Hroc; [|exact Hroc];
      pose proof (save_predictions_fs args y_pred w1) as Hsave;
      destruct (save_predictions E args y_pred w1) as [[[]|e] w2];
      rewrite Hroc in Hsave; exact Hsave
  end.

Lemma eval_model_fs (args : Args)
    (clf : classifier) (x_test : pyinputs) (y_test : ndarray)
    (target_names : list string) (w : World) :
  match eval_model E args clf x_test y_test target_names w with
  | (Return _, w') =>
      exists rows,
        w_fs w' = <[predictions_file args :=
                      FDelim TAB ["ID"; "BODY"; "REMOVED"] rows]> (w_fs w)
  | (Raise _, w') => w_fs w' = w_fs w
  end.
Proof. follow_eval_model args clf x_test y_test target_names. Qed.

(** X14. The predictions file is written by a run of [eval_model] that
    returns, and by no other: when [eval_model] raises, in prediction,
    scoring, the report, [predict_proba], the ROC metrics or
    [save_predictions] itself, every file is as it was before the call. *)
Theorem eval_model_writes_predictions_only_on_success (args : Args)
    (clf : classifier) (x_test : pyinputs) (y_test : ndarray)
    (target_names : list string) (w : World) :
  match eval_model E args clf x_test y_test target_names w with
  | (Return _, w') =>
      exists rows,
        w_fs w' = <[predictions_file args :=
                      FDelim TAB ["ID"; "BODY"; "REMOVED"] rows]> (w_fs w)
  | (Raise _, w') => w_fs w' = w_fs w
  end.
Proof.
  unfold eval_model, clf_predict, clf_score, clf_predict_proba, print. run.
  destruct (predict E clf x_test) as [y_pred|e]; run; [|reflexivity].
  destruct (score E clf x_test y_test) as [sc|e]; run; [|reflexivity].
  destruct (classification_report E y_test y_pred target_names) as [report|e];
    run; [|reflexivity].
  destruct (predict_proba E clf x_test) as [y_score|e]; run; [|reflexivity].
  match goal with
  | |- context [roc_curve E y_test y_score 2 ?w0] =>
      pose proof (roc_curve_keeps_fs y_test y_score 2 w0) as Hroc;
      destruct (roc_curve E y_test y_score 2 w0) as [[[]|e] w1]
  end; run; simpl in Hroc; [|exact Hroc].
  pose proof (save_predictions_fs args y_pred w1) as Hsave.
  destruct (save_predictions E args y_pred w1) as [[[]|e] w2];
    rewrite Hroc in Hsave; exact Hsave.
Qed.

(** X15. A run of [make_classifier_and_predict] that fails after the fit has
    left the fitted model behind.  For each of the three names and matrices
    as inputs, a run that raises [e] either failed in [fit], and then wrote
    no file, or failed in the evaluation, and then the only file it wrote is
    the model file, from which [load_model] with the same [args] returns the
    fitted classifier. *)
Theorem failed_run_leaves_the_fitted_model (args : Args)
    (x_train x_test y_train y_test : ndarray) (target_names : list string)
    (random_seed : Z) (clf_name : string) (est : estimator)
    (w w' : World) (e : exn) :
  In (clf_name, est)
     [("randomforest", RandomForestClassifier 100 1000 100 8 random_seed true);
      ("svc", SVC "auto" random_seed true);
      ("mlp", MLPClassifier [512; 128]%Z "relu" true random_seed)] ->
  make_classifier_and_predict E args (PyArray x_train, y_train)
    (PyArray x_test, y_test) target_names random_seed clf_name w
  = (Raise e, w') ->
  let path := os_path_join (workdir args)
                (clf_save_name args +:+ "_" +:+ clf_type args +:+ ".pkl") in
  let clf := fitted_on est (PyArray x_train) y_train in
  (fit E est (PyArray x_train) y_train = Some e /\ w_fs w' = w_fs w)
  \/ (fit E est (PyArray x_train) y_train = None
      /\ w_fs w' = <[path := FPkl clf]> (w_fs w)
      /\ (load_model args w').1 = Return clf).
Proof.
  intros Hsel Hrun path clf.
  rewrite (make_classifier_and_predict_run E _ _ _ _ _ _ _ _ est _ Hsel) in Hrun.
  fold path clf in Hrun.
  destruct (fit E est (PyArray x_train) y_train) as [e'|].
  - left. injection Hrun as <- <-. split; reflexivity.
  - right. split; [reflexivity|].
    match type of Hrun with
    | context [eval_model E ?a ?c ?x ?y ?t ?w0] =>
        pose proof (eval_model_fs a c x y t w0)
          as Heval;
        destruct (eval_model E a c x y t w0) as [[[]|e'] w3]
    end; [discriminate|].
    injection Hrun as <- <-. simpl in Heval.
    split; [exact Heval|].
    unfold load_model, joblib_load, format_pkl. fold path. run.
    rewrite Heval, lookup_insert_eq. reflexivity.
Qed.

(** ** Where the files go *)

Lemma prefix_nil (b : string) : String.prefix "" b = true.
Proof. now destruct b. Qed.

Lemma prefix_app (a b : string) : String.prefix a (a +:+ b) = true.
Proof.
  induction a as [|c a IH]; simpl; [apply prefix_nil|].
  now destruct (ascii_dec c c).
Qed.

Lemma starts_with_slash_app (a b : string) :
  starts_with "/" a = true -> starts_with "/" (a +:+ b) = true.
Proof.
  unfold starts_with. intros H. destruct a as [|c a]; [discriminate H|].
  change (String.prefix "/" (String c a))
    with (if ascii_dec "/" c then String.prefix "" a else false) in H.
  change (String.prefix "/" (String c a +:+ b))
    with (if ascii_dec "/" c then String.prefix "" (a +:+ b) else false).
  destruct (ascii_dec "/" c); [apply prefix_nil | discriminate H].
Qed.

Lemma string_app_assoc (a b c : string) : (a +:+ b) +:+ c = a +:+ (b +:+ c).
Proof.
  induction a as [|x a IH]; [reflexivity|].
  change (String x ((a +:+ b) +:+ c) = String x (a +:+ (b +:+ c))).
  now rewrite IH.
Qed.

(** X16. A model name that is an absolute path escapes the work directory.
    When [args.clf_save_name] starts with "/", [save_model] dumps the
    classifier at [{clf_save_name}_{clf_type}.pkl] itself, and
    [args.workdir] plays no part. *)
Theorem absolute_model_name_ignores_workdir (args : Args) (clf : classifier)
    (w : World) :
  starts_with "/" (clf_save_name args) = true ->
  let path := clf_save_name args +:+ "_" +:+ clf_type args +:+ ".pkl" in
  save_model args clf w
  = (Return tt,
     mk_world (<[path := FPkl clf]> (w_fs w)) (w_log w)
              (w_trace w ++ [EvJoblibDump clf path])).
Proof.
  intros Habs path. unfold save_model, joblib_dump, format_pkl. fold path.
  assert (Hjoin : os_path_join (workdir args) path = path).
  { unfold os_path_join, path. now rewrite (starts_with_slash_app _ _ Habs). }
  rewrite Hjoin. now run.
Qed.

(** X17. The two cache files are always under the work directory.  Whatever
    [args.workdir] and [args.encoder_type] are, both cache paths begin with
    [args.workdir], end in [.npy], so that [np.save] writes the very path
    whose existence is tested, and differ from each other. *)
Theorem cache_paths_stay_under_workdir (args : Args) :
  let ptr := os_path_join (workdir args)
               ("training_" +:+ encoder_type args +:+ "-comments.npy") in
  let pte := os_path_join (workdir args)
               ("test_" +:+ encoder_type args +:+ "-comments.npy") in
  String.prefix (workdir args) ptr = true
  /\ String.prefix (workdir args) pte = true
  /\ ends_with ".npy" ptr = true
  /\ ends_with ".npy" pte = true
  /\ ptr <> pte.
Proof.
  intros ptr pte. repeat split.
  - unfold ptr, os_path_join. simpl starts_with. cbv iota.
    destruct (_ || _)%bool; apply prefix_app.
  - unfold pte, os_path_join. simpl starts_with. cbv iota.
    destruct (_ || _)%bool; apply prefix_app.
  - apply os_path_join_ends_with.
    exact (tinp_file_ends_with_npy "training" (encoder_type args)).
  - apply os_path_join_ends_with.
    exact (tinp_file_ends_with_npy "test" (encoder_type args)).
  - exact (train_test_paths_differ (workdir args) (encoder_type args)).
Qed.

(** X18. Two settings can share a model file.  The file name joins
    [clf_save_name] and [clf_type] with "_", so a name ending in "_m" with
    type [t] and the name without that ending with type "m_t" give the same
    path: in one work directory, [load_model] with the second setting
    returns the classifier [save_model] wrote with the first. *)
Theorem model_files_can_coincide (args1 args2 : Args) (m : string)
    (clf : classifier) (w : World) :
  workdir args1 = workdir args2 ->
  clf_save_name args1 = clf_save_name args2 +:+ "_" +:+ m ->
  clf_type args2 = m +:+ "_" +:+ clf_type args1 ->
  ((save_model args1 clf;; load_model args2) w).1 = Return clf.
Proof.
  intros Hwd Hname Htype.
  unfold save_model, load_model, format_pkl.
  rewrite Hwd, Hname, Htype, !string_app_assoc.
  unfold joblib_dump, joblib_load. run.
  now rewrite lookup_insert_eq.
Qed.

(** X19. A run of [make_classifier_and_predict] that returns has written
    two files and no other: the model file, holding the classifier it
    returns, and then the predictions file.  Unless the two paths are the
    same, [load_model] with the same [args] gives back the classifier
    returned. *)
Theorem returned_classifier_can_be_loaded (args : Args)
    (x_train x_test y_train y_test : ndarray) (target_names : list string)
    (random_seed : Z) (clf_name : string) (est : estimator)
    (w w' : World) (clf : classifier) :
  In (clf_name, est)
     [("randomforest", RandomForestClassifier 100 1000 100 8 random_seed true);
      ("svc", SVC "auto" random_seed true);
      ("mlp", MLPClassifier [512; 128]%Z "relu" true random_seed)] ->
  make_classifier_and_predict E args (PyArray x_train, y_train)
    (PyArray x_test, y_test) target_names random_seed clf_name w
  = (Return clf, w') ->
  let path := os_path_join (workdir args)
                (clf_save_name args +:+ "_" +:+ clf_type args +:+ ".pkl") in
  (exists rows,
     w_fs w' = <[predictions_file args :=
                   FDelim TAB ["ID"; "BODY"; "REMOVED"] rows]>
                 (<[path := FPkl clf]> (w_fs w)))
  /\ (predictions_file args <> path -> (load_model args w').1 = Return clf).
Proof.
  intros Hsel Hrun path.
  rewrite (make_classifier_and_predict_run E _ _ _ _ _ _ _ _ est _ Hsel) in Hrun.
  fold path in Hrun.
  destruct (fit E est (PyArray x_train) y_train) as [e'|]; [discriminate|].
  match type of Hrun with
  | context [eval_model E ?a ?c ?x ?y ?t ?w0] =>
      pose proof (eval_model_fs a c x y t w0) as Heval;
      destruct (eval_model E a c x y t w0) as [[[]|e'] w3]
  end; [|discriminate].
  injection Hrun as <- <-. destruct Heval as [rows Heval]. simpl in Heval.
  split; [now exists rows|].
  intros Hne. unfold load_model, joblib_load, format_pkl. fold path. run.
  rewrite Heval, lookup_insert_ne by exact Hne.
  now rewrite lookup_insert_eq.
Qed.

(** X20. [load_encoded_inputs] stops at the first matrix it cannot load.
    When the training file is missing or is not a matrix file, the test
    file is not opened: the one library call is the [np.load] of the
    training path, the error and the exception are logged, and the value
    is [None]. *)
Theorem load_stops_at_the_first_failure (training_mat_path test_mat_path : string)
    (w : World) :
  (forall a, w_fs w !! training_mat_path <> Some (FNpy a)) ->
  exists e,
    load_encoded_inputs training_mat_path test_mat_path w
    = (Return None,
       mk_world (w_fs w)
         (w_log w
          ++ [mk_log INFO "Loading encoded training matrix from: {}"
                     [LStr training_mat_path];
              mk_log ERROR "Error loading encoded inputs as numpy file" [];
              mk_log ERROR "{}" [LExn e]])
         (w_trace w ++ [EvNpLoad training_mat_path])).
Proof.
  intros Hbad.
  destruct (np_load_not_npy training_mat_path
              (mk_world (w_fs w)
                 (w_log w ++ [mk_log INFO "Loading encoded training matrix from: {}"
                                     [LStr training_mat_path]])
                 (w_trace w))) as [e He]; [exact Hbad|].
  exists e.
  unfold load_encoded_inputs, try_except, try_except_else, logger_exception.
  run. rewrite He. run. now rewrite <- !app_assoc.
Qed.

End Further.

(** ** The hypotheses of the further properties are met on the sample runs *)

Lemma fresh_run_encodes_and_saves_both_witness :
  (encode_or_load_data (Sample.ext true) Sample.args Sample.loader Sample.w_fresh).1
  = Return ((PyArray (Sample.embed Sample.body_train), np_array [SNum 0; SNum 1]),
            (PyArray (Sample.embed Sample.body_test), np_array [SNum 1])).
Proof.
  rewrite (fresh_run_encodes_and_saves_both (Sample.ext true) Sample.args
             Sample.loader Sample.w_fresh
             (Sample.embed Sample.body_train) (Sample.embed Sample.body_test));
    reflexivity.
Defined.

Lemma second_run_loads_what_the_first_saved_witness :
  exists r w1 w2,
    encode_or_load_data (Sample.ext true) Sample.args Sample.loader Sample.w_fresh
    = (r, w1)
    /\ encode_or_load_data (Sample.ext false) Sample.args Sample.loader w1 = (r, w2)
    /\ r = Return ((PyArray (Sample.embed Sample.body_train),
                    np_array [SNum 0; SNum 1]),
                   (PyArray (Sample.embed Sample.body_test), np_array [SNum 1])).
Proof.
  destruct (second_run_loads_what_the_first_saved (Sample.ext true)
              (Sample.ext false) Sample.args Sample.loader Sample.w_fresh
              (Sample.embed Sample.body_train) (Sample.embed Sample.body_test))
    as (r & w1 & w2 & H1 & H2 & Hr & _); [reflexivity..|].
  exists r, w1, w2. auto.
Defined.

Lemma half_cache_is_used_from_the_second_run_on_witness :
  exists w1 w2,
    encode_or_load_data (Sample.ext true) Sample.args Sample.loader
      Sample.w_train_cached
    = (Return ((PyEmptyList, np_array [SNum 0; SNum 1]),
               (PyArray (Sample.embed Sample.body_test), np_array [SNum 1])), w1)
    /\ encode_or_load_data (Sample.ext false) Sample.args Sample.loader w1
       = (Return ((PyArray Sample.m_train, np_array [SNum 0; SNum 1]),
                  (PyArray (Sample.embed Sample.body_test), np_array [SNum 1])), w2).
Proof.
  apply (half_cache_is_used_from_the_second_run_on (Sample.ext true)
           (Sample.ext false) Sample.args Sample.loader Sample.w_train_cached
           Sample.m_train (Sample.embed Sample.body_test));
    reflexivity.
Defined.

Lemma unreadable_cache_raises_type_error_witness :
  exists w',
    encode_or_load_data (Sample.ext true) Sample.args Sample.loader
      Cases.w_unreadable
    = (Raise (Exn "TypeError" "cannot unpack non-iterable NoneType object"), w')
    /\ w_fs w' = w_fs Cases.w_unreadable.
Proof.
  destruct (unreadable_cache_raises_type_error (Sample.ext true) Sample.args
              Sample.loader Cases.w_unreadable)
    as (w' & Hrun & Hfs & _); [by_compute | by_compute | |].
  - left. intros a. vm_compute. discriminate.
  - now exists w'.
Defined.

Lemma unknown_encoder_yields_empty_inputs_witness :
  exists w',
    encode_or_load_data (Sample.ext true) Cases.args_unknown_encoder
      Sample.loader Sample.w_fresh
    = (Return ((PyEmptyList, np_array [SNum 0; SNum 1]),
               (PyEmptyList, np_array [SNum 1])), w')
    /\ w_trace w' = [].
Proof.
  destruct (unknown_encoder_yields_empty_inputs (Sample.ext true)
              Cases.args_unknown_encoder Sample.loader Sample.w_fresh)
    as (w' & Hrun & _ & Htrace);
    [discriminate | discriminate | left; reflexivity |].
  now exists w'.
Defined.


Lemma roc_curve_calls_witness :
  exists w',
    roc_curve (Sample.ext true) (np_array [SNum 1])
      (mk_ndarray [1%nat; 2%nat] [SNum 1; SNum 0]) 2 Sample.w_fresh
    = (Return tt, w')
    /\ w_trace w'
       = [EvNumpy "setitem"; EvNumpy "max"; EvRocAucScore]
         ++ roc_class_events 0 ++ roc_class_events 1
         ++ [EvRocCurve (KStr "micro"); EvAuc (KStr "micro"); EvPlotRoc].
Proof.
  eassert (Hrun : roc_curve (Sample.ext true) (np_array [SNum 1])
                    (mk_ndarray [1%nat; 2%nat] [SNum 1; SNum 0]) 2 Sample.w_fresh
                  = (Return tt, _)) by (vm_compute; reflexivity).
  destruct (roc_curve_calls (Sample.ext true) _ _ _ _ _ Hrun) as [roc_score Hw].
  eexists. split; [exact Hrun|]. rewrite Hw. reflexivity.
Defined.

Lemma empty_inputs_raise_attribute_error_witness :
  exists w',
    make_classifier_and_predict (Sample.ext true) Sample.args
      (PyEmptyList, np_array [SNum 0; SNum 1])
      (PyArray Sample.m_test, np_array [SNum 1])
      ["kept"; "removed"] 7 "randomforest" Sample.w_fresh
    = (Raise (Exn "AttributeError" "'list' object has no attribute 'shape'"), w').
Proof.
  destruct (empty_inputs_raise_attribute_error (Sample.ext true) Sample.args
              (PyEmptyList, np_array [SNum 0; SNum 1])
              (PyArray Sample.m_test, np_array [SNum 1])
              ["kept"; "removed"] 7 "randomforest" Sample.w_fresh)
    as (w' & Hrun & _); [left; reflexivity|].
  now exists w'.
Defined.

Lemma half_cache_result_cannot_be_trained_on_witness :
  exists train_set test_set w1,
    encode_or_load_data (Sample.ext true) Sample.args Sample.loader
      Sample.w_train_cached
    = (Return (train_set, test_set), w1)
    /\ (make_classifier_and_predict (Sample.ext true) Sample.args train_set
          test_set ["kept"; "removed"] 7 "mlp" w1).1
       = Raise (Exn "AttributeError" "'list' object has no attribute 'shape'").
Proof.
  destruct (half_cache_result_cannot_be_trained_on (Sample.ext true) Sample.args
              Sample.loader Sample.w_train_cached)
    as (train_set & test_set & w1 & Hrun & Hfail).
  - left. split; by_compute.
  - exists train_set, test_set, w1. split; [exact Hrun | apply Hfail].
Defined.

Lemma save_predictions_too_many_predictions_witness :
  (save_predictions (Sample.ext true) Sample.args
     (mk_ndarray [3%nat] [SNum 0; SNum 1; SNum 0]) Sample.w_fresh).1
  = Raise (Exn "IndexError" "single positional indexer is out-of-bounds").
Proof.
  rewrite (save_predictions_too_many_predictions (Sample.ext true) Sample.args
             _ Sample.w_fresh
             (mk_df ["BODY"; "REMOVED"] [SNum 0] [[SStr "third comment"; SNum 1]])
             3 []);
    [reflexivity | reflexivity | simpl; tauto | simpl; tauto | reflexivity
     | simpl; lia].
Defined.

Lemma save_predictions_missing_column_witness :
  (save_predictions (Sample.ext true) Sample.args
     (mk_ndarray [1%nat] [SNum 0]) Cases.w_no_removed).1
  = Raise (Exn "KeyError" "not in index").
Proof.
  rewrite (save_predictions_missing_column (Sample.ext true) Sample.args
             _ Cases.w_no_removed
             (mk_df ["BODY"] [SNum 0] [[SStr "third comment"]]));
    [reflexivity | reflexivity |].
  right. simpl. intros [H|[]]. discriminate H.
Defined.

Lemma save_predictions_writes_every_gold_row_witness :
  (save_predictions (Sample.ext true) Sample.args (mk_ndarray [0%nat] [])
     Sample.w_fresh).1
  = Return tt.
Proof.
  rewrite (save_predictions_writes_every_gold_row (Sample.ext true) Sample.args
             _ Sample.w_fresh
             (mk_df ["BODY"; "REMOVED"] [SNum 0] [[SStr "third comment"; SNum 1]])
             0 1 0 []);
    [reflexivity | reflexivity | reflexivity | reflexivity | reflexivity
     | simpl; lia].
Defined.

Lemma failed_run_leaves_the_fitted_model_witness :
  exists e w',
    make_classifier_and_predict Cases.ext_no_proba Sample.args
      (PyArray Sample.m_train, np_array [SNum 0; SNum 1])
      (PyArray Sample.m_test, np_array [SNum 1])
      ["kept"; "removed"] 7 "svc" Sample.w_fresh
    = (Raise e, w')
    /\ (load_model Sample.args w').1
       = Return (fitted_on (SVC "auto" 7 true) (PyArray Sample.m_train)
                   (np_array [SNum 0; SNum 1])).
Proof.
  eassert (Hrun : make_classifier_and_predict Cases.ext_no_proba Sample.args
                    (PyArray Sample.m_train, np_array [SNum 0; SNum 1])
                    (PyArray Sample.m_test, np_array [SNum 1])
                    ["kept"; "removed"] 7 "svc" Sample.w_fresh
                  = (Raise _, _)) by (vm_compute; reflexivity).
  destruct (failed_run_leaves_the_fitted_model Cases.ext_no_proba Sample.args
              _ _ _ _ _ _ "svc" (SVC "auto" 7 true) _ _ _
              ltac:(simpl; tauto) Hrun)
    as [[Hfit _]|(_ & _ & Hload)]; [discriminate Hfit|].
  do 2 eexists. split; [exact Hrun | exact Hload].
Defined.

Lemma absolute_model_name_ignores_workdir_witness :
  exists w',
    save_model Cases.args_absolute (unfitted (SVC "auto" 7 true)) Sample.w_fresh
    = (Return tt, w')
    /\ w_trace w'
       = [EvJoblibDump (unfitted (SVC "auto" 7 true)) "/models/clf_svc.pkl"].
Proof.
  eexists.
  rewrite (absolute_model_name_ignores_workdir Cases.args_absolute
             (unfitted (SVC "auto" 7 true)) Sample.w_fresh);
    [split; reflexivity | reflexivity].
Defined.

Lemma model_files_can_coincide_witness :
  ((save_model Cases.args_ab_c (unfitted (SVC "auto" 7 true));;
    load_model Cases.args_a_bc) Sample.w_fresh).1
  = Return (unfitted (SVC "auto" 7 true)).
Proof.
  apply (model_files_can_coincide Cases.args_ab_c Cases.args_a_bc "b");
    reflexivity.
Defined.

Lemma returned_classifier_can_be_loaded_witness :
  exists clf w',
    make_classifier_and_predict (Sample.ext true) Sample.args
      (PyArray Sample.m_train, np_array [SNum 0; SNum 1])
      (PyArray Sample.m_test, np_array [SNum 1])
      ["kept"; "removed"] 7 "mlp" Sample.w_fresh
    = (Return clf, w')
    /\ (load_model Sample.args w').1 = Return clf.
Proof.
  eassert (Hrun : make_classifier_and_predict (Sample.ext true) Sample.args
                    (PyArray Sample.m_train, np_array [SNum 0; SNum 1])
                    (PyArray Sample.m_test, np_array [SNum 1])
                    ["kept"; "removed"] 7 "mlp" Sample.w_fresh
                  = (Return _, _)) by (vm_compute; reflexivity).
  destruct (returned_classifier_can_be_loaded (Sample.ext true) Sample.args
              _ _ _ _ _ _ "mlp" (MLPClassifier [512; 128]%Z "relu" true 7) _ _ _
              ltac:(simpl; tauto) Hrun) as [_ Hload].
  do 2 eexists. split; [exact Hrun|]. apply Hload. discriminate.
Defined.

Lemma load_stops_at_the_first_failure_witness :
  exists w',
    load_encoded_inputs "work/training_LASER-comments.npy"
      "work/test_LASER-comments.npy" Cases.w_unreadable
    = (Return None, w')
    /\ w_trace w' = [EvNpLoad "work/training_LASER-comments.npy"].
Proof.
  destruct (load_stops_at_the_first_failure "work/training_LASER-comments.npy"
              "work/test_LASER-comments.npy" Cases.w_unreadable) as [e Hrun].
  - intros a. vm_compute. discriminate.
  - eexists. split; [exact Hrun | reflexivity].
Defined.
